(** * protean.core.repository.base: the repository contract

    A shallow embedding of [BaseRepository], [RepositorySchemaOpts] and the
    unique-constraint validator of [protean/core/repository/base.py].

    The repository is backend agnostic: the query, create and update
    primitives and the two schema conversions are abstract methods.  They
    are an interface here (type classes [Backend] and [Schema]); the
    repository methods are written once over any instance, in a state and
    exception monad that threads the store and a log of the calls made to
    the collaborators.  Field names reach the query primitive as keyword
    arguments; the binding of keywords to its parameters is part of the
    embedding. *)

From Stdlib Require Import List String Ascii ZArith Bool Lia.
Import ListNotations.
Open Scope string_scope.
Open Scope Z_scope.
Set Warnings "-register-all".

(** ** Python values *)

Module Py.

(** The values that travel through the repository: identifiers, field
    values, ordering keys. *)
Inductive PyVal : Type :=
| PyNone
| PyBool (b : bool)
| PyInt (z : Z)
| PyStr (s : string)
| PyList (l : list PyVal)
| PyTuple (l : list PyVal).

(** [a == b].  Booleans are integers; a list never equals a tuple. *)
Fixpoint py_eqb (a b : PyVal) {struct a} : bool :=
  let fix seq_eqb (x y : list PyVal) {struct x} : bool :=
    match x, y with
    | [], [] => true
    | u :: x', v :: y' => py_eqb u v && seq_eqb x' y'
    | _, _ => false
    end in
  match a, b with
  | PyNone, PyNone => true
  | PyBool x, PyBool y => Bool.eqb x y
  | PyBool x, PyInt y => Z.b2z x =? y
  | PyInt x, PyBool y => x =? Z.b2z y
  | PyInt x, PyInt y => x =? y
  | PyStr x, PyStr y => String.eqb x y
  | PyList x, PyList y => seq_eqb x y
  | PyTuple x, PyTuple y => seq_eqb x y
  | _, _ => false
  end.

(** [bool(v)] *)
Definition truthy (v : PyVal) : bool :=
  match v with
  | PyNone => false
  | PyBool b => b
  | PyInt z => negb (z =? 0)
  | PyStr s => negb (String.eqb s "")
  | PyList l | PyTuple l => negb (Nat.eqb (List.length l) 0)
  end.

(** [isinstance(v, collections.Iterable)]: strings, lists and tuples
    define [__iter__]; [None], booleans and integers do not. *)
Definition is_iterable (v : PyVal) : bool :=
  match v with
  | PyStr _ | PyList _ | PyTuple _ => true
  | PyNone | PyBool _ | PyInt _ => false
  end.

(** [v in seq] *)
Definition py_in (v : PyVal) (seq : list PyVal) : bool :=
  existsb (py_eqb v) seq.

(** A [dict] with string keys keeps its keys in insertion order; assigning
    to a key that is present replaces the value where the key stands. *)
Definition dict (V : Type) : Type := list (string * V).

Fixpoint dict_get {V} (d : dict V) (k : string) : option V :=
  match d with
  | [] => None
  | (k', v) :: d' => if String.eqb k' k then Some v else dict_get d' k
  end.

Fixpoint dict_set {V} (d : dict V) (k : string) (v : V) : dict V :=
  match d with
  | [] => [(k, v)]
  | (k', v') :: d' =>
      if String.eqb k' k then (k', v) :: d' else (k', v') :: dict_set d' k v
  end.

Definition keys {V} (d : dict V) : list string := map fst d.

End Py.
Export Py.

(** ** Exceptions *)

(** [protean.core.exceptions], the [KeyError] of a failed subscript and
    the [TypeError] of a call that cannot be bound or of [issubclass] on
    a value that is no class.  A [ValidationError] carries a mapping from
    field name to messages; an [ObjectNotFoundError] carries the two
    values its message is formatted from, the name of the schema class and
    the identifier. *)
Inductive Exn : Type :=
| ObjectNotFoundError (schema_name : string) (identifier : PyVal)
| ValidationError (messages : dict (list string))
| ConfigurationError (msg : string)
| KeyError (key : string)
| AdapterError (msg : string)
| TypeError (msg : string).

Definition result (A : Type) : Type := (Exn + A)%type.

(** ** Entities *)

(** What the repository reads of a field descriptor. *)
Record Field : Type := mkField {
  identifier : bool;
  unique : bool
}.

(** Modelled from the spec: [protean.core.entity] is not part of the
    sources at hand.  An entity type declares its fields in order and
    designates one of them as identifier; the unique-constraint set is
    derived from the declared fields, each entry a pair of field name and
    field descriptor. *)
Record EntityMeta : Type := mkMeta {
  id_field : string * Field;
  declared_fields : dict Field
}.

Definition unique_fields (m : EntityMeta) : list (string * Field) :=
  List.filter (fun nf => unique (snd nf)) (declared_fields m).

(** An entity instance: its type's options and its attribute values. *)
Record Entity : Type := mkEntity {
  meta_ : EntityMeta;
  attrs : dict PyVal
}.

(** [getattr(entity, name, default)] *)
Definition getattr (e : Entity) (name : string) (default : PyVal) : PyVal :=
  match dict_get (attrs e) name with
  | Some v => v
  | None => default
  end.

(** An entity class: calling it builds an instance from positional and
    keyword arguments, or raises (field-level validation);
    [entity.update(data)] applies a partial field map, or raises. *)
Record EntityCls : Type := mkEntityCls {
  cls_name : string;
  cls_meta : EntityMeta;
  cls_call : list PyVal -> dict PyVal -> result Entity;
  cls_update : Entity -> dict PyVal -> result Entity
}.

(** ** Pagination *)

(** Modelled from the spec: [.pagination] is not part of the sources at
    hand.  A pure container; its truth value is that of [items], and
    [first] is the first item or the absent value when there is none. *)
Record Pagination (A : Type) : Type := mkPagination {
  page : Z;
  per_page : Z;
  total : Z;
  items : list A
}.
Arguments mkPagination {A}.
Arguments page {A}.
Arguments per_page {A}.
Arguments total {A}.
Arguments items {A}.

Definition Pagination_bool {A} (p : Pagination A) : bool :=
  negb (Nat.eqb (List.length (items p)) 0).

Definition first {A} (p : Pagination A) : option A :=
  match items p with
  | [] => None
  | x :: _ => Some x
  end.

(** [results.items = new_items] *)
Definition set_items {A B} (p : Pagination A) (new_items : list B)
  : Pagination B :=
  mkPagination (page p) (per_page p) (total p) new_items.

(** ** Schema options *)

(** What [Meta.entity] is bound to: a subclass of [Entity], some other
    class, or a value that is no class at all. *)
Inductive PyObject : Type :=
| EntityClass (c : EntityCls)
| OtherClass (name : string)
| NotAClass (v : PyVal).

(** [bool(o)]: a class is truthy. *)
Definition object_truthy (o : PyObject) : bool :=
  match o with
  | EntityClass _ | OtherClass _ => true
  | NotAClass v => truthy v
  end.

(** [issubclass(o, Entity)], which raises on what is no class. *)
Definition issubclass_Entity (o : PyObject) : result bool :=
  match o with
  | EntityClass _ => inr true
  | OtherClass _ => inr false
  | NotAClass _ => inl (TypeError "issubclass() arg 1 must be a class")
  end.

(** The declarative [class Meta] of a schema: each option is present or
    not ([getattr(meta, name, default)]). *)
Record Meta : Type := mkSchemaMeta {
  meta_entity : option PyObject;
  meta_schema_name : option string;
  meta_bind : option string;
  meta_order_by : option PyVal
}.

Record RepositorySchemaOpts : Type := mkOpts {
  entity_cls : EntityCls;
  schema_name : string;
  bind : string;
  order_by : PyVal
}.

Module inflection.
(** [inflection.underscore], of [protean.utils], is not part of the sources
    at hand: the options are resolved over any such function. *)
Class Inflection : Type := { underscore : string -> string }.
End inflection.
Export inflection.

(** [RepositorySchemaOpts.__init__(meta, schema_cls)]; of [schema_cls] only
    [__name__] is read.  The test is
    [not self.entity_cls or not issubclass(self.entity_cls, Entity)]:
    [issubclass] is reached for a truthy value only. *)
Definition RepositorySchemaOpts_init `{Inflection}
    (meta : Meta) (schema_cls_name : string) : result RepositorySchemaOpts :=
  let configuration_error :=
    inl (ConfigurationError
           "`entity` option must be set and be a subclass of `Entity`.") in
  match meta_entity meta with
  | None => configuration_error
  | Some o =>
      if negb (object_truthy o) then configuration_error
      else
        match issubclass_Entity o, o with
        | inl e, _ => inl e
        | inr true, EntityClass c =>
            let schema_name :=
              match meta_schema_name meta with
              | None => underscore schema_cls_name
              | Some s =>
                  if String.eqb s "" then underscore schema_cls_name else s
              end in
            let bind :=
              match meta_bind meta with Some b => b | None => "default" end in
            let order_by :=
              match meta_order_by meta with
              | Some o => o
              | None => PyTuple []
              end in
            inr (mkOpts c schema_name bind order_by)
        | inr _, _ => configuration_error
        end
  end.

(** ** The interfaces of the collaborators *)

(** The value of [_excludes] as the query primitive receives it: a dict,
    or any other value ([None] when there are no excludes). *)
Inductive PyArg : Type :=
| ArgVal (v : PyVal)
| ArgDict (d : dict PyVal).

Definition excludes_arg (_excludes : option (dict PyVal)) : PyArg :=
  match _excludes with
  | None => ArgVal PyNone
  | Some d => ArgDict d
  end.

(** The abstract methods of [BaseRepository].  [Store] is the state behind
    the connection, [Record] the backend's native record.  The query
    primitive [_filter_objects] takes whatever values the call binds to
    [page], [per_page], [order_by] and [_excludes], and the remaining
    keywords as [filters]; it reads the store.  The write primitives
    return the new store and the persisted entity, or raise. *)
Class Backend (Store Record : Type) : Type := {
  query_objects :
    Store -> PyVal -> PyVal -> PyVal -> PyArg -> dict PyVal ->
    Pagination Record;
  create_object : Store -> Entity -> result Entity * Store;
  update_object : Store -> Entity -> result Entity * Store;
  delete : Store -> PyVal -> result unit * Store
}.

(** The query primitive called with an integer page and page size and
    with excludes that are a dict or [None]. *)
Definition filter_objects {Store Record} `{Backend Store Record}
    (st : Store) (page per_page : Z) (order_by : PyVal)
    (_excludes : option (dict PyVal)) (filters : dict PyVal)
  : Pagination Record :=
  query_objects st (PyInt page) (PyInt per_page) order_by
                (excludes_arg _excludes) filters.

(** [BaseRepositorySchema]: the resolved options, the two conversions, and
    the [__name__] of the schema class. *)
Class Schema (Record : Type) : Type := {
  opts : RepositorySchemaOpts;
  from_entity : Entity -> Record;
  to_entity : Record -> Entity;
  schema_cls_name : string
}.

(** [BaseRepositorySchema.name] *)
Definition name {Record} `{Schema Record} : string := schema_name opts.

(** [self.schema.opts.order_by], the default ordering of the schema. *)
Definition default_order_by {Record} `{Schema Record} : PyVal :=
  order_by opts.

(** [Field.empty_values] and [Field.fail]'s table of messages, of
    [protean.core.field], are not part of the sources at hand: the
    validator is written over any such tuple of sentinels. *)
Class FieldClass : Type := {
  empty_values : list PyVal;
  error_message : string -> string -> string -> string
}.

(** Modelled from the spec: [Field.fail] is not part of the sources at
    hand.  It raises the structured violation: a [ValidationError] that
    attributes the formatted message to the field. *)
Definition fail `{FieldClass} (field_obj : Field) (key : string)
    (schema_name field_name : string) : Exn :=
  ValidationError [(field_name, [error_message key schema_name field_name])].

(** ** The monad of repository methods *)

(** A call to a collaborator, as the repository makes it. *)
Inductive Call : Type :=
| CallQuery (page per_page order_by : PyVal) (_excludes : PyArg)
            (filters : dict PyVal)
| CallCreate (entity : Entity)
| CallUpdate (entity : Entity)
| CallEntityUpdate (entity : Entity) (data : dict PyVal).

(** The call of [filter_objects]. *)
Definition CallFilter (page per_page : Z) (order_by : PyVal)
    (_excludes : option (dict PyVal)) (filters : dict PyVal) : Call :=
  CallQuery (PyInt page) (PyInt per_page) order_by
            (excludes_arg _excludes) filters.

(** The store behind the connection, and the log of the calls so far. *)
Record World (Store : Type) : Type := mkWorld {
  store : Store;
  calls : list Call
}.
Arguments mkWorld {Store}.
Arguments store {Store}.
Arguments calls {Store}.

Definition log {Store} (c : Call) (w : World Store) : World Store :=
  mkWorld (store w) (calls w ++ [c]).

Definition M (Store A : Type) : Type := World Store -> result A * World Store.

Definition ret {Store A} (a : A) : M Store A := fun w => (inr a, w).

Definition raise {Store A} (e : Exn) : M Store A := fun w => (inl e, w).

Definition bind_ {Store A B} (m : M Store A) (k : A -> M Store B)
  : M Store B :=
  fun w =>
    match m w with
    | (inl e, w') => (inl e, w')
    | (inr a, w') => k a w'
    end.

Definition lift {Store A} (r : result A) : M Store A := fun w => (r, w).

Declare Scope repo_scope.
Delimit Scope repo_scope with repo.
Notation "x <- m ;; k" := (bind_ m (fun x => k))
  (at level 61, m at next level, right associativity) : repo_scope.
Notation "m ;;; k" := (bind_ m (fun _ => k))
  (at level 61, right associativity) : repo_scope.

(** ** Keyword arguments *)

(** The parameters of [_filter_objects(self, page, per_page, order_by,
    _excludes, **filters)] that a keyword can name. *)
Definition parameters : list string :=
  ["page"; "per_page"; "order_by"; "_excludes"].

Definition is_parameter (k : string) : bool :=
  existsb (String.eqb k) parameters.

(** The arguments of one call of the query primitive. *)
Record QueryArgs : Type := mkQuery {
  q_page : PyVal;
  q_per_page : PyVal;
  q_order_by : PyVal;
  q_excludes : PyArg;
  q_filters : dict PyVal
}.

(** The defaults of the signature: [page=1], [per_page=10],
    [order_by=()], [_excludes=None], no filter. *)
Definition default_query : QueryArgs :=
  mkQuery (PyInt 1) (PyInt 10) (PyTuple []) (ArgVal PyNone) [].

Definition with_excludes (_excludes : option (dict PyVal)) : QueryArgs :=
  mkQuery (PyInt 1) (PyInt 10) (PyTuple []) (excludes_arg _excludes) [].

(** [**kwargs] at a call of [_filter_objects]: a keyword named after a
    parameter is bound to that parameter, the other keywords are collected
    as [filters]. *)
Definition bind_keywords (q : QueryArgs) (kwargs : dict PyVal) : QueryArgs :=
  let keyword (k : string) (default : PyVal) : PyVal :=
    match dict_get kwargs k with
    | Some v => v
    | None => default
    end in
  mkQuery (keyword "page" (q_page q))
          (keyword "per_page" (q_per_page q))
          (keyword "order_by" (q_order_by q))
          (match dict_get kwargs "_excludes" with
           | Some v => ArgVal v
           | None => q_excludes q
           end)
          (List.filter (fun kv => negb (is_parameter (fst kv))) kwargs).

Definition call_of (q : QueryArgs) : Call :=
  CallQuery (q_page q) (q_per_page q) (q_order_by q) (q_excludes q)
            (q_filters q).

(** ** BaseRepository *)

Section BaseRepository.

Context {Store Record : Type}.
Context `{Backend Store Record} `{Schema Record} `{FieldClass}.

Local Open Scope repo_scope.

(** The abstract methods, as the repository calls them: each call is
    logged.  [_filter_objects] with its four parameters given by position
    and [filters] as the remaining keywords, as [filter] calls it: *)
Definition _filter_objects (page per_page : Z) (order_by : PyVal)
    (_excludes : option (dict PyVal)) (filters : dict PyVal)
  : M Store (Pagination Record) :=
  fun w =>
    (inr (filter_objects (store w) page per_page order_by _excludes filters),
     log (CallFilter page per_page order_by _excludes filters) w).

Definition _create_object (entity : Entity) : M Store Entity :=
  fun w =>
    let (r, st) := create_object (store w) entity in
    (r, mkWorld st (calls w ++ [CallCreate entity])).

Definition _update_object (entity : Entity) : M Store Entity :=
  fun w =>
    let (r, st) := update_object (store w) entity in
    (r, mkWorld st (calls w ++ [CallUpdate entity])).

(** The query primitive on the arguments of a call. *)
Definition run_query (st : Store) (q : QueryArgs) : Pagination Record :=
  query_objects st (q_page q) (q_per_page q) (q_order_by q) (q_excludes q)
                (q_filters q).

(** [self._filter_objects(<given>, **kwargs)], as [get] and [exists] call
    it: [q] holds the parameters that the call site gives by name
    ([given]) and the defaults of the others.  A keyword of [kwargs] that
    is [self] or one of [given] is a second value for that argument, and
    the call raises [TypeError] before the primitive runs (its message,
    which also names the function called, is shortened here); otherwise
    the keywords are bound.  (For [exists(self, _excludes, **filters)] the
    same two names, [self] and [_excludes], are refused where [exists]
    itself is called.) *)
Definition _filter_objects_kw (given : list string) (q : QueryArgs)
    (kwargs : dict PyVal) : M Store (Pagination Record) :=
  match find (fun k => existsb (String.eqb k) ("self" :: given))
             (keys kwargs) with
  | Some k => raise (TypeError ("got multiple values for argument " ++ k))
  | None =>
      fun w =>
        (inr (run_query (store w) (bind_keywords q kwargs)),
         log (call_of (bind_keywords q kwargs)) w)
  end.

(** [entity.update(data)] *)
Definition Entity_update (entity : Entity) (data : dict PyVal)
  : M Store Entity :=
  fun w =>
    (cls_update (entity_cls opts) entity data,
     log (CallEntityUpdate entity data) w).

(** [BaseRepository.get] *)
Definition get (identifier : PyVal) : M Store Entity :=
  let entity_cls := entity_cls opts in
  let filters := [(fst (id_field (cls_meta entity_cls)), identifier)] in
  results <- _filter_objects_kw [] default_query filters ;;
  if Nat.eqb (List.length (items results)) 0 then
    raise (ObjectNotFoundError schema_cls_name identifier)
  else
    match first results with
    | Some record => ret (to_entity record)
    | None => raise (AdapterError "to_entity(None)")
    end.

(** The loop of [filter] that converts the items one by one. *)
Definition convert_items (records : list Record) : list Entity :=
  fold_left (fun entity_items item => (entity_items ++ [to_entity item])%list)
            records [].

(** The two statements of [filter] that settle the ordering. *)
Definition resolve_order_by (order_by : PyVal) : PyVal :=
  let order_by :=
    if negb (truthy order_by) then default_order_by else order_by in
  let order_by :=
    if negb (is_iterable order_by) then PyList [order_by] else order_by in
  order_by.

(** [BaseRepository.filter] *)
Definition filter (page per_page : Z) (order_by : PyVal)
    (_excludes : option (dict PyVal)) (filters : dict PyVal)
  : M Store (Pagination Entity) :=
  let order_by := resolve_order_by order_by in
  results <- _filter_objects page per_page order_by _excludes filters ;;
  let entity_items := convert_items (items results) in
  ret (set_items results entity_items).

(** [BaseRepository.exists] *)
Definition exists_ (_excludes : option (dict PyVal)) (filters : dict PyVal)
  : M Store bool :=
  results <- _filter_objects_kw ["_excludes"] (with_excludes _excludes)
                                filters ;;
  ret (Pagination_bool results).

(** The first loop of [validate_unique]: one step per unique field, on
    the pair [(filters, excludes)]. *)
Definition unique_step (entity : Entity) (create : bool)
    (acc : dict PyVal * dict PyVal) (nf : string * Field)
  : dict PyVal * dict PyVal :=
  let (filters, excludes) := acc in
  let (field_name, field_obj) := nf in
  let lookup_value := getattr entity field_name PyNone in
  if py_in lookup_value empty_values then (filters, excludes)
  else if negb create && identifier field_obj then
    (filters, dict_set excludes field_name lookup_value)
  else (dict_set filters field_name lookup_value, excludes).

Definition unique_lookups (entity : Entity) (create : bool)
  : dict PyVal * dict PyVal :=
  fold_left (unique_step entity create) (unique_fields (meta_ entity))
            ([], []).

(** The second loop of [validate_unique]: one existence check per filter,
    in the order of the [filters] dict; the first match raises. *)
Fixpoint check_unique (entity : Entity) (excludes : dict PyVal)
    (filters : dict PyVal) : M Store unit :=
  match filters with
  | [] => ret tt
  | (filter_key, lookup_value) :: rest =>
      found <- exists_ (Some excludes) [(filter_key, lookup_value)] ;;
      if found : bool then
        match dict_get (declared_fields (meta_ entity)) filter_key with
        | Some field_obj =>
            raise (fail field_obj "unique" (schema_name opts) filter_key)
        | None => raise (KeyError filter_key)
        end
      else check_unique entity excludes rest
  end.

(** [BaseRepository.validate_unique] *)
Definition validate_unique (entity : Entity) (create : bool)
  : M Store unit :=
  let (filters, excludes) := unique_lookups entity create in
  check_unique entity excludes filters.

(** [BaseRepository.create] *)
Definition create (args : list PyVal) (kwargs : dict PyVal)
  : M Store Entity :=
  entity <- lift (cls_call (entity_cls opts) args kwargs) ;;
  validate_unique entity true ;;;
  entity <- _create_object entity ;;
  ret entity.

(** [BaseRepository.update] *)
Definition update (identifier : PyVal) (data : dict PyVal)
  : M Store Entity :=
  entity <- get identifier ;;
  entity <- Entity_update entity data ;;
  validate_unique entity false ;;;
  entity <- _update_object entity ;;
  ret entity.

End BaseRepository.

(** ** What the statements are written with *)

(** The names that a field cannot bear without meeting the signature of
    the query primitive: those of its parameters, and [self]. *)
Definition reserved (k : string) : bool :=
  existsb (String.eqb k) ("self" :: parameters).

Definition plain_names (names : list string) : bool :=
  forallb (fun k => negb (reserved k)) names.

(** The names that [exists(self, _excludes, **filters)] refuses as
    keywords. *)
Definition refused (k : string) : bool :=
  existsb (String.eqb k) ["self"; "_excludes"].

(** The adapter's view of its store as a sequence of records with named
    fields.  A record is selected by a query when it agrees with every
    filter and with no exclude ("objects with these properties will be
    excluded from the results"). *)
Class RecordView (Store Record : Type) : Type := {
  records : Store -> list Record;
  record_get : Record -> string -> PyVal
}.

Section Selection.

Context {Store Record : Type} `{RecordView Store Record}.

Definition agrees (r : Record) (kv : string * PyVal) : bool :=
  py_eqb (record_get r (fst kv)) (snd kv).

Definition matches (filters : dict PyVal) (r : Record) : bool :=
  forallb (agrees r) filters.

Definition excluded (_excludes : option (dict PyVal)) (r : Record) : bool :=
  match _excludes with
  | None => false
  | Some ex => existsb (agrees r) ex
  end.

Definition selected (_excludes : option (dict PyVal)) (filters : dict PyVal)
    (r : Record) : bool :=
  matches filters r && negb (excluded _excludes r).

(** The store holds a record with this value of the field that the
    excludes do not rule out. *)
Definition taken (st : Store) (excludes : dict PyVal)
    (kv : string * PyVal) : Prop :=
  exists r, In r (records st) /\ agrees r kv = true /\
            excluded (Some excludes) r = false.

(** The first field of [filters] that is taken. *)
Definition first_taken (st : Store) (excludes : dict PyVal)
    (filters : dict PyVal) (kv : string * PyVal) : Prop :=
  exists before after,
    filters = (before ++ kv :: after)%list /\
    taken st excludes kv /\
    forall kv', In kv' before -> ~ taken st excludes kv'.

End Selection.

Section Lookups.

Context {Store Record : Type}.
Context `{Backend Store Record} `{Schema Record} `{FieldClass}.

(** A unique field takes part in the lookups when its value is not an
    empty sentinel; it is an exclude when the entity is updated and the
    field is the identifier, and a filter otherwise. *)
Definition nonempty_field (entity : Entity) (nf : string * Field) : bool :=
  negb (py_in (getattr entity (fst nf) PyNone) empty_values).

Definition is_exclude (create : bool) (nf : string * Field) : bool :=
  negb create && identifier (snd nf).

Definition lookup_of (entity : Entity) (nf : string * Field)
  : string * PyVal :=
  (fst nf, getattr entity (fst nf) PyNone).

(** The filters and the excludes, field by field in declaration order. *)
Definition filter_fields (entity : Entity) (create : bool) : dict PyVal :=
  map (lookup_of entity)
      (List.filter
         (fun nf => nonempty_field entity nf && negb (is_exclude create nf))
         (unique_fields (meta_ entity))).

Definition exclude_fields (entity : Entity) (create : bool) : dict PyVal :=
  map (lookup_of entity)
      (List.filter
         (fun nf => nonempty_field entity nf && is_exclude create nf)
         (unique_fields (meta_ entity))).

(** The filter that [get] builds from the identifier. *)
Definition id_filter (identifier : PyVal) : dict PyVal :=
  [(fst (id_field (cls_meta (entity_cls opts))), identifier)].

(** The arguments of the query that [get] makes. *)
Definition get_query (identifier : PyVal) : QueryArgs :=
  bind_keywords default_query (id_filter identifier).

(** The arguments of the query by which [exists(excludes, **{k: v})]
    checks one field, and its answer on a store. *)
Definition check_query (excludes : dict PyVal) (kv : string * PyVal)
  : QueryArgs :=
  bind_keywords (with_excludes (Some excludes)) [kv].

Definition answers (st : Store) (excludes : dict PyVal)
    (kv : string * PyVal) : bool :=
  Pagination_bool (run_query st (check_query excludes kv)).

(** The existence check of one filter on a store, for a field whose name
    is not reserved: the field and its value are the only filter. *)
Definition conflicts (st : Store) (excludes : dict PyVal)
    (kv : string * PyVal) : bool :=
  Pagination_bool
    (filter_objects st 1 10 (PyTuple []) (Some excludes) [kv]).

(** The call that this check then makes to the query primitive. *)
Definition probe (excludes : dict PyVal) (kv : string * PyVal) : Call :=
  CallFilter 1 10 (PyTuple []) (Some excludes) [kv].

(** The violation the validator raises for a field. *)
Definition unique_violation (field_name : string) : Exn :=
  ValidationError
    [(field_name, [error_message "unique" (schema_name opts) field_name])].

End Lookups.

(** The elements of [l] up to and including the first that satisfies [p]. *)
Fixpoint until {A} (p : A -> bool) (l : list A) : list A :=
  match l with
  | [] => []
  | x :: l' => if p x then [x] else x :: until p l'
  end.

(** A call to one of the two write primitives. *)
Definition is_write (c : Call) : bool :=
  match c with
  | CallCreate _ | CallUpdate _ => true
  | _ => false
  end.

(** From [w] to [w'] no write primitive was called. *)
Definition no_write_since {Store} (w w' : World Store) : Prop :=
  exists made, calls w' = (calls w ++ made)%list /\
               forallb (fun c => negb (is_write c)) made = true.

(** A query that names the field among its filters or its excludes. *)
Definition queries_field (field_name : string) (c : Call) : Prop :=
  match c with
  | CallQuery _ _ _ ex filters =>
      In field_name (keys filters) \/
      match ex with ArgDict d => In field_name (keys d) | ArgVal _ => False end
  | _ => False
  end.

(** The key of a violation, when the exception is one. *)
Definition keyed_by (field_name : string) (e : Exn) : Prop :=
  match e with
  | ValidationError messages => In field_name (keys messages)
  | _ => False
  end.

(** ** An in-memory adapter *)

(** A small adapter to run the repository on: the store is a list of rows,
    a row is a dict.  The entity is an account with an identifier, two
    further unique fields and a plain one. *)
Module DictRepo.

Definition Row : Type := dict PyVal.

Definition row_get (r : Row) (k : string) : PyVal :=
  match dict_get r k with
  | Some v => v
  | None => PyNone
  end.

#[export] Instance view : RecordView (list Row) Row :=
  {| records := fun st => st; record_get := row_get |}.

Definition slice {A} (page per_page : Z) (l : list A) : list A :=
  firstn (Z.to_nat per_page) (skipn (Z.to_nat ((page - 1) * per_page)) l).

(** The query primitive; this adapter leaves the rows in insertion
    order. *)
Definition query (st : list Row) (page per_page : Z) (order_by : PyVal)
    (_excludes : option (dict PyVal)) (filters : dict PyVal)
  : Pagination Row :=
  let found := List.filter (selected _excludes filters) st in
  mkPagination page per_page (Z.of_nat (List.length found))
               (slice page per_page found).

(** What the adapter does with the values a call binds to its
    parameters: a page and a page size that are integers (booleans are)
    are paginated, any other gives an empty page; excludes that are no
    dict exclude nothing. *)
Definition as_int (v : PyVal) : option Z :=
  match v with
  | PyInt z => Some z
  | PyBool b => Some (Z.b2z b)
  | _ => None
  end.

Definition query_any (st : list Row) (page per_page order_by : PyVal)
    (_excludes : PyArg) (filters : dict PyVal) : Pagination Row :=
  match as_int page, as_int per_page with
  | Some p, Some n =>
      query st p n order_by
            (match _excludes with ArgDict d => Some d | ArgVal _ => None end)
            filters
  | _, _ => mkPagination 1 10 0 []
  end.

Definition account_meta : EntityMeta :=
  {| id_field := ("id", mkField true true);
     declared_fields :=
       [("id", mkField true true);
        ("email", mkField false true);
        ("username", mkField false true);
        ("bio", mkField false false)] |}.

Definition Account_init (args : list PyVal) (kwargs : dict PyVal)
  : result Entity :=
  inr (mkEntity account_meta
         (map (fun nf =>
                 (fst nf,
                  match dict_get kwargs (fst nf) with
                  | Some v => v
                  | None => PyNone
                  end))
              (declared_fields account_meta))).

Definition Account_update (e : Entity) (data : dict PyVal) : result Entity :=
  inr (mkEntity (meta_ e)
         (fold_left
            (fun a kv =>
               match dict_get (declared_fields (meta_ e)) (fst kv) with
               | Some _ => dict_set a (fst kv) (snd kv)
               | None => a
               end)
            data (attrs e))).

Definition Account : EntityCls :=
  {| cls_name := "Account";
     cls_meta := account_meta;
     cls_call := Account_init;
     cls_update := Account_update |}.

Definition insert (st : list Row) (e : Entity) : result Entity * list Row :=
  (inr e, (st ++ [attrs e])%list).

Definition replace_by (id_name : string) (st : list Row) (e : Entity)
  : result Entity * list Row :=
  (inr e,
   map (fun r => if py_eqb (row_get r id_name) (getattr e id_name PyNone)
                 then attrs e else r) st).

Definition replace : list Row -> Entity -> result Entity * list Row :=
  replace_by "id".

Definition remove_by (id_name : string) (st : list Row) (identifier : PyVal)
  : result unit * list Row :=
  (inr tt,
   List.filter (fun r => negb (py_eqb (row_get r id_name) identifier)) st).

Definition remove : list Row -> PyVal -> result unit * list Row :=
  remove_by "id".

(** The adapter of an entity type whose identifier field is [id_name]. *)
Definition backend_by (id_name : string) : Backend (list Row) Row :=
  {| query_objects := query_any;
     create_object := insert;
     update_object := replace_by id_name;
     delete := remove_by id_name |}.

#[export] Instance backend : Backend (list Row) Row := backend_by "id".

#[export] Instance fields : FieldClass :=
  {| empty_values := [PyNone; PyStr ""; PyList []; PyTuple []];
     error_message := fun key schema_name field_name =>
       "`" ++ schema_name ++ "` with this `" ++ field_name
           ++ "` already exists." |}.

(** A sample [underscore]: an underscore before every capital that is not
    the first character, then lower case. *)
Definition lower (c : Ascii.ascii) : Ascii.ascii :=
  let n := Ascii.nat_of_ascii c in
  if (Nat.leb 65 n && Nat.leb n 90)%bool
  then Ascii.ascii_of_nat (n + 32) else c.

Fixpoint snake (at_start : bool) (s : string) : string :=
  match s with
  | EmptyString => EmptyString
  | String c s' =>
      let n := Ascii.nat_of_ascii c in
      if (Nat.leb 65 n && Nat.leb n 90 && negb at_start)%bool
      then String "_"%char (String (lower c) (snake false s'))
      else String (lower c) (snake false s')
  end.

#[export] Instance inflect : Inflection := {| underscore := snake true |}.

Definition account_opts : RepositorySchemaOpts :=
  mkOpts Account "account_schema" "default" (PyTuple []).

#[export] Instance schema : Schema Row :=
  {| opts := account_opts;
     from_entity := attrs;
     to_entity := mkEntity account_meta;
     schema_cls_name := "AccountSchema" |}.

Definition ann : Row :=
  [("id", PyInt 1); ("email", PyStr "ann@example.com");
   ("username", PyStr "ann"); ("bio", PyStr "")].

Definition bob : Row :=
  [("id", PyInt 2); ("email", PyStr "bob@example.com");
   ("username", PyStr "bob"); ("bio", PyStr "")].

Definition world0 : World (list Row) := mkWorld [ann; bob] [].

(** The stored account of ann, as an entity. *)
Definition ann_entity : Entity := mkEntity account_meta ann.

(** A new account that takes both the email and the username of ann. *)
Definition twin_kwargs : dict PyVal :=
  [("id", PyInt 3); ("email", PyStr "ann@example.com");
   ("username", PyStr "ann")].

Definition twin : Entity :=
  mkEntity account_meta
    [("id", PyInt 3); ("email", PyStr "ann@example.com");
     ("username", PyStr "ann"); ("bio", PyNone)].

(** A stored account with an empty username, and a new one with an empty
    username too. *)
Definition anon : Row :=
  [("id", PyInt 4); ("email", PyStr "anon@example.com");
   ("username", PyStr ""); ("bio", PyStr "")].

Definition shy_kwargs : dict PyVal :=
  [("id", PyInt 5); ("email", PyStr "shy@example.com");
   ("username", PyStr "")].

Definition shy : Entity :=
  mkEntity account_meta
    [("id", PyInt 5); ("email", PyStr "shy@example.com");
     ("username", PyStr ""); ("bio", PyNone)].

Definition world1 : World (list Row) := mkWorld [ann; anon] [].

(** An account none of whose unique fields holds a value. *)
Definition blank : Entity :=
  mkEntity account_meta
    [("id", PyNone); ("email", PyStr ""); ("username", PyNone);
     ("bio", PyStr "nothing yet")].

(** ann with another biography. *)
Definition ann_rewritten : Entity :=
  mkEntity account_meta
    [("id", PyInt 1); ("email", PyStr "ann@example.com");
     ("username", PyStr "ann"); ("bio", PyStr "hello")].

(** The account schema with a default ordering. *)
Definition ordered_schema : Schema Row :=
  {| opts := mkOpts Account "account_schema" "default"
                    (PyList [PyStr "-id"]);
     from_entity := attrs;
     to_entity := mkEntity account_meta;
     schema_cls_name := "AccountSchema" |}.

(** A second entity type: sheets with a title, whose identifier field
    bears the name [n].  A sheet is built from its two values given by
    position, [Sheet(value, title)]. *)
Definition sheet_meta (n : string) : EntityMeta :=
  {| id_field := (n, mkField true true);
     declared_fields :=
       [(n, mkField true true); ("title", mkField false true)] |}.

Definition Sheet_init (n : string) (args : list PyVal) (kwargs : dict PyVal)
  : result Entity :=
  match args, kwargs with
  | [v; title], [] => inr (mkEntity (sheet_meta n) [(n, v); ("title", title)])
  | _, _ => inl (TypeError "Sheet() takes two positional arguments")
  end.

Definition Sheet (n : string) : EntityCls :=
  {| cls_name := "Sheet";
     cls_meta := sheet_meta n;
     cls_call := Sheet_init n;
     cls_update := Account_update |}.

Definition sheet_schema (n : string) : Schema Row :=
  {| opts := mkOpts (Sheet n) "sheet" "default" (PyTuple []);
     from_entity := attrs;
     to_entity := mkEntity (sheet_meta n);
     schema_cls_name := "SheetSchema" |}.

Definition sheet (n : string) (v : PyVal) (title : string) : Row :=
  [(n, v); ("title", PyStr title)].

Definition sheet_entity (n : string) (v : PyVal) (title : string) : Entity :=
  mkEntity (sheet_meta n) (sheet n v title).

(** Two stored sheets, with identifiers 7 and 8. *)
Definition sheets (n : string) : list Row :=
  [sheet n (PyInt 7) "a"; sheet n (PyInt 8) "b"].

(** [create(v, title)] on sheets, from an empty log; and whether what it
    raises is keyed by a field. *)
Definition create_sheet (n : string) (st : list Row) (v : PyVal)
    (title : string) : result Entity * World (list Row) :=
  @create _ _ (backend_by n) (sheet_schema n) fields
          [v; PyStr title] [] (mkWorld st []).

Definition blames (k : string) (r : result Entity) : Prop :=
  exists e, r = inl e /\ keyed_by k e.

End DictRepo.

(** * Properties *)

(** ** Dicts *)

Section DictFacts.

Context {V : Type}.

Lemma dict_set_fresh (d : dict V) (k : string) (v : V) :
  ~ In k (keys d) -> dict_set d k v = (d ++ [(k, v)])%list.
Proof.
  induction d as [|[k' v'] d IH]; simpl; intros Hk.
  - reflexivity.
  - destruct (String.eqb k' k) eqn:E.
    + apply String.eqb_eq in E. exfalso. apply Hk. now left.
    + rewrite IH; [reflexivity|]. intros Hin. apply Hk. now right.
Qed.

Lemma dict_get_In (d : dict V) (k : string) (v : V) :
  In (k, v) d -> exists v', dict_get d k = Some v'.
Proof.
  induction d as [|[k' v'] d IH]; simpl; intros Hin.
  - contradiction.
  - destruct (String.eqb k' k) eqn:E.
    + eauto.
    + destruct Hin as [Heq|Hin].
      * inversion Heq; subst. rewrite String.eqb_refl in E. discriminate.
      * auto.
Qed.

Lemma dict_get_not_In (d : dict V) (k : string) :
  ~ In k (keys d) -> dict_get d k = None.
Proof.
  induction d as [|[k' v'] d IH]; simpl; intros Hk.
  - reflexivity.
  - destruct (String.eqb k' k) eqn:E.
    + apply String.eqb_eq in E. exfalso. apply Hk. now left.
    + apply IH. intros Hin. apply Hk. now right.
Qed.

End DictFacts.

(** ** Keywords *)

Section KeywordFacts.

Lemma reserved_false (k : string) :
  reserved k = false ->
  String.eqb k "self" = false /\ is_parameter k = false /\
  refused k = false.
Proof.
  unfold reserved, refused, is_parameter, parameters. cbn [existsb].
  intros Hr. repeat (apply orb_false_iff in Hr; destruct Hr as [? Hr]).
  repeat split; trivial.
  - repeat (apply orb_false_iff; split; trivial).
  - repeat (apply orb_false_iff; split; trivial).
Qed.

Lemma plain_names_In (names : list string) (k : string) :
  plain_names names = true -> In k names -> reserved k = false.
Proof.
  unfold plain_names. intros Hp Hin.
  rewrite forallb_forall in Hp. apply negb_true_iff. now apply Hp.
Qed.

Lemma filter_all {A} (p : A -> bool) (l : list A) :
  (forall x, In x l -> p x = true) -> List.filter p l = l.
Proof.
  induction l as [|x l IH]; intros Hall; [reflexivity|].
  cbn [List.filter]. rewrite Hall by now left.
  f_equal. apply IH. intros y Hy. apply Hall. now right.
Qed.

(** Keywords that do not bear the name of a parameter are all filters. *)
Lemma bind_keywords_plain (q : QueryArgs) (kwargs : dict PyVal) :
  plain_names (keys kwargs) = true ->
  bind_keywords q kwargs =
  mkQuery (q_page q) (q_per_page q) (q_order_by q) (q_excludes q) kwargs.
Proof.
  intros Hp. unfold bind_keywords.
  assert (Hget : forall p, reserved p = true -> dict_get kwargs p = None).
  { intros p Hr. apply dict_get_not_In. intros Hin.
    rewrite (plain_names_In _ _ Hp Hin) in Hr. discriminate. }
  rewrite !Hget by reflexivity. f_equal.
  apply filter_all. intros [k v] Hin. cbn [fst].
  apply negb_true_iff.
  apply (reserved_false k). apply (plain_names_In _ _ Hp).
  unfold keys. now apply (in_map fst _ (k, v)).
Qed.

End KeywordFacts.

(** ** Runs of the repository methods *)

Section Runs.

Context {Store Record : Type}.
Context `{Backend Store Record} `{Schema Record} `{FieldClass}.

Lemma until_no_match {A} (p : A -> bool) (l : list A) :
  find p l = None -> until p l = l.
Proof.
  induction l as [|x l IH]; simpl; [reflexivity|].
  destruct (p x); [discriminate|]. intros Hf. now rewrite IH.
Qed.

(** With keywords whose names are not reserved, the keyword call is the
    positional one. *)
Lemma _filter_objects_kw_plain (given : list string)
    (page_ per_page_ : Z) (order : PyVal) (ex : option (dict PyVal))
    (kwargs : dict PyVal) :
  (forall g, In g given -> reserved g = true) ->
  plain_names (keys kwargs) = true ->
  _filter_objects_kw given
    (mkQuery (PyInt page_) (PyInt per_page_) order (excludes_arg ex) [])
    kwargs =
  _filter_objects page_ per_page_ order ex kwargs.
Proof.
  intros Hg Hp. unfold _filter_objects_kw.
  destruct (find _ (keys kwargs)) as [k|] eqn:Ef.
  - destruct (find_some _ _ Ef) as [Hin Hk]. exfalso.
    pose proof (plain_names_In _ _ Hp Hin) as Hr.
    apply existsb_exists in Hk. destruct Hk as [g [Hgin Heq]].
    apply String.eqb_eq in Heq. subst g.
    destruct Hgin as [<-|Hgin]; [discriminate|].
    rewrite (Hg k Hgin) in Hr. discriminate.
  - rewrite bind_keywords_plain by exact Hp. reflexivity.
Qed.

(** [exists] on filters whose names are not reserved. *)
Lemma exists_run (ex : option (dict PyVal)) (filters : dict PyVal)
    (w : World Store) :
  plain_names (keys filters) = true ->
  exists_ ex filters w =
  (inr (Pagination_bool
          (filter_objects (store w) 1 10 (PyTuple []) ex filters)),
   log (CallFilter 1 10 (PyTuple []) ex filters) w).
Proof.
  intros Hp. unfold exists_, with_excludes.
  rewrite _filter_objects_kw_plain; trivial.
  intros g [<-|[]]. reflexivity.
Qed.

(** [exists] on any filters. *)
Lemma exists_any (ex : option (dict PyVal)) (filters : dict PyVal)
    (w : World Store) :
  exists_ ex filters w =
  match find refused (keys filters) with
  | Some k => (inl (TypeError ("got multiple values for argument " ++ k)), w)
  | None =>
      (inr (Pagination_bool
              (run_query (store w) (bind_keywords (with_excludes ex) filters))),
       log (call_of (bind_keywords (with_excludes ex) filters)) w)
  end.
Proof.
  unfold exists_, bind_, _filter_objects_kw.
  change (fun k : string => existsb (String.eqb k) ["self"; "_excludes"])
    with refused.
  destruct (find refused (keys filters)); reflexivity.
Qed.

(** The check of a field whose name is not reserved. *)
Lemma check_query_plain (ex : dict PyVal) (k : string) (v : PyVal) :
  reserved k = false ->
  check_query ex (k, v) =
  mkQuery (PyInt 1) (PyInt 10) (PyTuple []) (ArgDict ex) [(k, v)].
Proof.
  intros Hr. unfold check_query. rewrite bind_keywords_plain; [reflexivity|].
  unfold plain_names, keys. cbn [map fst forallb]. now rewrite Hr.
Qed.

Lemma answers_plain (st : Store) (ex : dict PyVal) (k : string) (v : PyVal) :
  reserved k = false -> answers st ex (k, v) = conflicts st ex (k, v).
Proof.
  intros Hr. unfold answers. now rewrite check_query_plain.
Qed.

Lemma call_of_check_plain (ex : dict PyVal) (k : string) (v : PyVal) :
  reserved k = false -> call_of (check_query ex (k, v)) = probe ex (k, v).
Proof.
  intros Hr. now rewrite check_query_plain.
Qed.

(** One turn of the second loop, whatever the name of the field. *)
Lemma check_unique_cons (entity : Entity) (ex : dict PyVal)
    (k : string) (v : PyVal) (rest : dict PyVal) (w : World Store) :
  check_unique entity ex ((k, v) :: rest) w =
  if refused k then
    (inl (TypeError ("got multiple values for argument " ++ k)), w)
  else
    let w1 := log (call_of (check_query ex (k, v))) w in
    if answers (store w) ex (k, v) then
      (inl match dict_get (declared_fields (meta_ entity)) k with
           | Some field_obj => fail field_obj "unique" (schema_name opts) k
           | None => KeyError k
           end, w1)
    else check_unique entity ex rest w1.
Proof.
  cbn [check_unique]. unfold bind_ at 1. rewrite exists_any.
  cbn [keys map fst find]. destruct (refused k); [reflexivity|].
  cbv beta iota zeta. unfold answers, check_query.
  destruct (Pagination_bool _); [|reflexivity].
  destruct (dict_get _ k); reflexivity.
Qed.

(** The second loop on filters whose names are not reserved: it stops at
    the first filter whose check finds a match, and has queried the
    filters up to that one, each on its own. *)
Lemma check_unique_run (entity : Entity) (ex : dict PyVal)
    (filters : dict PyVal) (w : World Store) :
  plain_names (keys filters) = true ->
  (forall kv, In kv filters ->
     dict_get (declared_fields (meta_ entity)) (fst kv) <> None) ->
  check_unique entity ex filters w =
  (match find (conflicts (store w) ex) filters with
   | Some kv => inl (unique_violation (fst kv))
   | None => inr tt
   end,
   mkWorld (store w)
     (calls w ++ map (probe ex) (until (conflicts (store w) ex) filters))).
Proof.
  revert w. induction filters as [|[k v] rest IH]; intros w Hp Hdecl.
  - simpl. rewrite app_nil_r. destruct w; reflexivity.
  - unfold plain_names, keys in Hp. cbn [map fst forallb] in Hp.
    apply andb_true_iff in Hp. destruct Hp as [Hk Hp].
    apply negb_true_iff in Hk.
    rewrite check_unique_cons. cbn [find until map]. cbv zeta.
    destruct (reserved_false k Hk) as [_ [_ Hrf]]. rewrite Hrf.
    rewrite answers_plain, call_of_check_plain by exact Hk.
    destruct (conflicts (store w) ex (k, v)) eqn:Ec.
    + destruct (dict_get (declared_fields (meta_ entity)) k) eqn:Ed.
      * reflexivity.
      * exfalso. apply (Hdecl (k, v)); [now left | exact Ed].
    + rewrite IH.
      * cbn [log store calls]. rewrite <- app_assoc. reflexivity.
      * exact Hp.
      * intros kv Hin. apply Hdecl. now right.
Qed.
(** On a dict of declared fields (no field name twice) the first loop
    leaves the filters and the excludes in declaration order. *)
Lemma unique_step_fold (entity : Entity) (create : bool)
    (l : list (string * Field)) :
  forall f x : dict PyVal,
  NoDup (map fst l) ->
  (forall k, In k (map fst l) -> ~ In k (keys f) /\ ~ In k (keys x)) ->
  fold_left (unique_step entity create) l (f, x) =
  ((f ++ map (lookup_of entity)
        (List.filter
           (fun nf => nonempty_field entity nf && negb (is_exclude create nf))
           l))%list,
   (x ++ map (lookup_of entity)
        (List.filter
           (fun nf => nonempty_field entity nf && is_exclude create nf)
           l))%list).
Proof.
  induction l as [|[k fld] l IH]; intros f x Hnd Hfresh.
  - simpl. now rewrite !app_nil_r.
  - inversion Hnd as [|? ? Hk Hnd']; subst.
    destruct (Hfresh k (or_introl eq_refl)) as [Hf Hx].
    assert (Hrest : forall k', In k' (map fst l) ->
                      ~ In k' (keys f) /\ ~ In k' (keys x)).
    { intros k' Hin. apply Hfresh. now right. }
    cbn [fold_left List.filter]. unfold unique_step at 2.
    unfold nonempty_field, is_exclude. cbn [fst snd].
    destruct (py_in (getattr entity k PyNone) empty_values) eqn:Ee;
      cbn [negb andb].
    + now apply IH.
    + destruct (negb create && identifier fld) eqn:Ex; cbn [negb map].
      * rewrite dict_set_fresh by exact Hx. rewrite IH; trivial.
        -- unfold lookup_of at 3. cbn [fst].
           now rewrite <- app_assoc.
        -- intros k' Hin. destruct (Hrest k' Hin) as [Hf' Hx']. split; trivial.
           unfold keys. rewrite map_app, in_app_iff. cbn.
           intros [Hin'|[Heq|[]]]; [now apply Hx'|subst; now apply Hk].
      * rewrite dict_set_fresh by exact Hf. rewrite IH; trivial.
        -- unfold lookup_of at 2. cbn [fst].
           now rewrite <- app_assoc.
        -- intros k' Hin. destruct (Hrest k' Hin) as [Hf' Hx']. split; trivial.
           unfold keys. rewrite map_app, in_app_iff. cbn.
           intros [Hin'|[Heq|[]]]; [now apply Hf'|subst; now apply Hk].
Qed.

Lemma NoDup_keys_filter {V} (p : string * V -> bool) (d : dict V) :
  NoDup (keys d) -> NoDup (keys (List.filter p d)).
Proof.
  unfold keys. induction d as [|[k v] d IH]; simpl; intros Hnd.
  - constructor.
  - inversion Hnd as [|? ? Hk Hnd']; subst.
    destruct (p (k, v)); simpl; [constructor|]; auto.
    intros Hin. apply Hk. apply in_map_iff in Hin.
    destruct Hin as [[k' v'] [Heq Hin]]. apply filter_In in Hin.
    apply in_map_iff. exists (k', v'). tauto.
Qed.

Lemma unique_lookups_spec (entity : Entity) (create : bool) :
  NoDup (keys (declared_fields (meta_ entity))) ->
  unique_lookups entity create =
  (filter_fields entity create, exclude_fields entity create).
Proof.
  intros Hnd. unfold unique_lookups, filter_fields, exclude_fields.
  rewrite unique_step_fold.
  - reflexivity.
  - apply (NoDup_keys_filter (fun nf => unique (snd nf))). exact Hnd.
  - intros k _. split; intros [].
Qed.

(** Every filter names a declared field. *)
Lemma filter_fields_declared (entity : Entity) (create : bool)
    (kv : string * PyVal) :
  In kv (filter_fields entity create) ->
  dict_get (declared_fields (meta_ entity)) (fst kv) <> None.
Proof.
  unfold filter_fields, unique_fields. intros Hin.
  apply in_map_iff in Hin. destruct Hin as [[k fld] [Heq Hin]]. subst kv.
  apply filter_In in Hin. destruct Hin as [Hin _].
  apply filter_In in Hin. destruct Hin as [Hin _].
  destruct (dict_get_In _ _ _ Hin) as [fld' Hget]. cbn. congruence.
Qed.

(** The filters bear the names of unique fields. *)
Lemma filter_fields_keys (entity : Entity) (create : bool) :
  incl (keys (filter_fields entity create))
       (keys (unique_fields (meta_ entity))).
Proof.
  intros k Hin. unfold keys, filter_fields in Hin. rewrite map_map in Hin.
  apply in_map_iff in Hin. destruct Hin as [nf [Heq Hin]]. cbn in Heq.
  subst k. apply filter_In in Hin. unfold keys. now apply in_map.
Qed.

Lemma plain_names_incl (l l' : list string) :
  incl l l' -> plain_names l' = true -> plain_names l = true.
Proof.
  unfold plain_names. rewrite !forallb_forall. auto.
Qed.

(** The whole validator, on a dict of declared fields whose unique
    fields bear no reserved name. *)
Lemma validate_unique_run (entity : Entity) (create : bool)
    (w : World Store) :
  NoDup (keys (declared_fields (meta_ entity))) ->
  plain_names (keys (unique_fields (meta_ entity))) = true ->
  let filters := filter_fields entity create in
  let excludes := exclude_fields entity create in
  validate_unique entity create w =
  (match find (conflicts (store w) excludes) filters with
   | Some kv => inl (unique_violation (fst kv))
   | None => inr tt
   end,
   mkWorld (store w)
     (calls w ++ map (probe excludes)
                     (until (conflicts (store w) excludes) filters))).
Proof.
  intros Hnd Hp filters excludes. unfold validate_unique.
  rewrite unique_lookups_spec by exact Hnd.
  apply check_unique_run.
  - exact (plain_names_incl _ _ (filter_fields_keys entity create) Hp).
  - intros kv. apply filter_fields_declared.
Qed.

(** With no assumption at all: the second loop only queries, one filter
    at a time, and what it raises is the violation of a filter, or the
    [TypeError] of a filter that [exists] refuses as a keyword. *)
Lemma check_unique_calls (entity : Entity) (ex : dict PyVal)
    (filters : dict PyVal) (w : World Store) :
  exists made,
    snd (check_unique entity ex filters w) =
      mkWorld (store w) (calls w ++ made) /\
    (forall c, In c made ->
       exists kv, In kv filters /\ c = call_of (check_query ex kv)) /\
    (forall e, fst (check_unique entity ex filters w) = inl e ->
       exists kv, In kv filters /\
         (refused (fst kv) = false /\ answers (store w) ex kv = true /\
          (e = unique_violation (fst kv) \/
           e = KeyError (fst kv) /\
           dict_get (declared_fields (meta_ entity)) (fst kv) = None) \/
          refused (fst kv) = true /\
          e = TypeError ("got multiple values for argument " ++ fst kv))).
Proof.
  revert w. induction filters as [|[k v] rest IH]; intros w.
  - exists []. simpl. rewrite app_nil_r. destruct w. repeat split.
    + intros c [].
    + intros e He. discriminate.
  - rewrite check_unique_cons. cbv zeta.
    destruct (refused k) eqn:Er.
    { exists []. cbn [fst snd]. rewrite app_nil_r. destruct w.
      split; [reflexivity|]. split; [intros c []|].
      intros e He. inversion He; subst e. exists (k, v).
      split; [now left|]. right. now split. }
    destruct (answers (store w) ex (k, v)) eqn:Ec.
    + exists [call_of (check_query ex (k, v))].
      split; [reflexivity|]. split.
      * intros c [<-|[]]. exists (k, v). split; [now left|reflexivity].
      * intros e He. exists (k, v). split; [now left|]. left.
        split; [exact Er|]. split; [exact Ec|]. cbn [fst snd] in He |- *.
        destruct (dict_get (declared_fields (meta_ entity)) k) eqn:Ed;
          inversion He; subst e; [now left|right; now split].
    + destruct (IH (log (call_of (check_query ex (k, v))) w))
        as [made [Hw [Hc He]]].
      exists (call_of (check_query ex (k, v)) :: made). split; [|split].
      * rewrite Hw. cbn [log store calls]. now rewrite <- app_assoc.
      * intros c [<-|Hin]; [exists (k, v); split; [now left|reflexivity]|].
        destruct (Hc c Hin) as [kv [Hkv ->]]. exists kv. split; [now right|auto].
      * intros e Hr. destruct (He e Hr) as [kv [Hkv Hor]].
        exists kv. split; [now right|exact Hor].
Qed.

Lemma queries_no_write (l : list QueryArgs) :
  forallb (fun c => negb (is_write c)) (map call_of l) = true.
Proof. induction l; simpl; auto. Qed.

(** The outcome of the second loop depends on the store only. *)
Lemma check_unique_outcome_store (entity : Entity) (ex filters : dict PyVal)
    (w1 w2 : World Store) :
  store w1 = store w2 ->
  fst (check_unique entity ex filters w1) =
  fst (check_unique entity ex filters w2).
Proof.
  revert w1 w2. induction filters as [|[k v] rest IH]; intros w1 w2 Hs.
  - reflexivity.
  - rewrite !check_unique_cons. cbv zeta. rewrite Hs.
    destruct (refused k); [reflexivity|].
    destruct (answers (store w2) ex (k, v)); [reflexivity|].
    apply IH. exact Hs.
Qed.

Lemma check_unique_meta (e1 e2 : Entity) (ex filters : dict PyVal)
    (w : World Store) :
  meta_ e1 = meta_ e2 ->
  check_unique e1 ex filters w = check_unique e2 ex filters w.
Proof.
  intros Hm. revert w. induction filters as [|[k v] rest IH]; intros w.
  - reflexivity.
  - rewrite !check_unique_cons. cbv zeta. rewrite Hm.
    destruct (refused k); [reflexivity|].
    destruct (answers (store w) ex (k, v)); [reflexivity|apply IH].
Qed.

Lemma keys_dict_set {V} (d : dict V) (k k' : string) (v : V) :
  In k' (keys (dict_set d k v)) -> k' = k \/ In k' (keys d).
Proof.
  induction d as [|[k0 v0] d IH]; simpl.
  - intros [<-|[]]. now left.
  - destruct (String.eqb k0 k); simpl; intros [<-|Hin]; auto.
    destruct (IH Hin); auto.
Qed.

(** The first loop only ever looks up fields whose value is not empty. *)
Lemma unique_lookups_nonempty (entity : Entity) (create : bool) (k : string) :
  In k (keys (fst (unique_lookups entity create))) \/
  In k (keys (snd (unique_lookups entity create))) ->
  py_in (getattr entity k PyNone) empty_values = false.
Proof.
  unfold unique_lookups.
  assert (Hinv : forall l acc,
    (forall k, In k (keys (fst acc)) \/ In k (keys (snd acc)) ->
       py_in (getattr entity k PyNone) empty_values = false) ->
    forall k,
      In k (keys (fst (fold_left (unique_step entity create) l acc))) \/
      In k (keys (snd (fold_left (unique_step entity create) l acc))) ->
      py_in (getattr entity k PyNone) empty_values = false).
  { induction l as [|[n fld] l IH]; intros [f x] Hacc k0; [apply Hacc|].
    cbn [fold_left]. apply IH. clear IH k0. intros k0.
    unfold unique_step.
    destruct (py_in (getattr entity n PyNone) empty_values) eqn:Ee;
      [apply Hacc|].
    destruct (negb create && identifier fld); cbn [fst snd];
      intros [Hin|Hin].
    - apply Hacc. now left.
    - destruct (keys_dict_set _ _ _ _ Hin) as [->|Hin']; trivial.
      apply Hacc. now right.
    - destruct (keys_dict_set _ _ _ _ Hin) as [->|Hin']; trivial.
      apply Hacc. now left.
    - apply Hacc. now right. }
  apply Hinv. cbn. intros k0 [[]|[]].
Qed.

(** The first loop only ever looks up unique fields of the entity. *)
Lemma unique_lookups_keys (entity : Entity) (create : bool) (k : string) :
  In k (keys (fst (unique_lookups entity create))) \/
  In k (keys (snd (unique_lookups entity create))) ->
  In k (keys (unique_fields (meta_ entity))).
Proof.
  unfold unique_lookups.
  assert (Hinv : forall (l0 l : list (string * Field)) acc,
    (forall x, In x l -> In (fst x) (keys l0)) ->
    (forall k, In k (keys (fst acc)) \/ In k (keys (snd acc)) ->
       In k (keys l0)) ->
    forall k,
      In k (keys (fst (fold_left (unique_step entity create) l acc))) \/
      In k (keys (snd (fold_left (unique_step entity create) l acc))) ->
      In k (keys l0)).
  { intros l0. induction l as [|[n fld] l IH]; intros [f x] Hl Hacc k0;
      [apply Hacc|].
    cbn [fold_left]. apply IH.
    - intros y Hy. apply Hl. now right.
    - clear IH k0. intros k0. unfold unique_step.
      assert (Hn : In n (keys l0)) by (apply (Hl (n, fld)); now left).
      destruct (py_in (getattr entity n PyNone) empty_values);
        [apply Hacc|].
      destruct (negb create && identifier fld); cbn [fst snd];
        intros [Hin|Hin].
      + apply Hacc. now left.
      + destruct (keys_dict_set _ _ _ _ Hin) as [->|Hin']; trivial.
        apply Hacc. now right.
      + destruct (keys_dict_set _ _ _ _ Hin) as [->|Hin']; trivial.
        apply Hacc. now left.
      + apply Hacc. now right. }
  apply (Hinv (unique_fields (meta_ entity))).
  - intros x Hx. unfold keys. now apply in_map.
  - cbn. intros k0 [[]|[]].
Qed.

Lemma keys_In {V} (d : dict V) (k : string) :
  In k (keys d) -> exists v, In (k, v) d.
Proof.
  unfold keys. intros Hin. apply in_map_iff in Hin.
  destruct Hin as [[k' v] [Heq Hin]]. cbn in Heq. subst. eauto.
Qed.

(** Every filter of the first loop names a declared field. *)
Lemma unique_lookups_declared (entity : Entity) (create : bool)
    (kv : string * PyVal) :
  In kv (fst (unique_lookups entity create)) ->
  dict_get (declared_fields (meta_ entity)) (fst kv) <> None.
Proof.
  intros Hin.
  assert (Hk : In (fst kv) (keys (unique_fields (meta_ entity)))).
  { apply (unique_lookups_keys entity create). left.
    unfold keys. now apply in_map. }
  destruct (keys_In _ _ Hk) as [fld Hfld].
  unfold unique_fields in Hfld. apply filter_In in Hfld.
  destruct (dict_get_In _ _ _ (proj1 Hfld)) as [fld' Hget]. congruence.
Qed.

(** The validator on any entity: it only queries, and what it raises is
    the violation of a unique field that holds a value and whose check
    found a record, or the [TypeError] of such a field that [exists]
    refuses as a keyword. *)
Lemma validate_unique_shape (entity : Entity) (create : bool)
    (w : World Store) :
  exists made,
    snd (validate_unique entity create w) =
      mkWorld (store w) (calls w ++ made) /\
    forallb (fun c => negb (is_write c)) made = true /\
    (forall c, In c made ->
       exists kv, In kv (fst (unique_lookups entity create)) /\
                  c = call_of (check_query
                                 (snd (unique_lookups entity create)) kv)) /\
    (forall e, fst (validate_unique entity create w) = inl e ->
       exists k v,
         In (k, v) (fst (unique_lookups entity create)) /\
         In k (keys (unique_fields (meta_ entity))) /\
         py_in (getattr entity k PyNone) empty_values = false /\
         (refused k = false /\
          answers (store w) (snd (unique_lookups entity create)) (k, v)
            = true /\
          e = unique_violation k \/
          refused k = true /\
          e = TypeError ("got multiple values for argument " ++ k))).
Proof.
  pose proof (unique_lookups_keys entity create) as Hkeys.
  pose proof (unique_lookups_nonempty entity create) as Hne.
  pose proof (unique_lookups_declared entity create) as Hdecl.
  unfold validate_unique.
  destruct (unique_lookups entity create) as [filters excludes].
  cbn [fst snd] in *.
  destruct (check_unique_calls entity excludes filters w)
    as [made [Hw [Hc He]]].
  exists made. split; [exact Hw|]. split; [|split; [exact Hc|]].
  - apply forallb_forall. intros c Hin.
    destruct (Hc c Hin) as [kv [_ ->]]. reflexivity.
  - intros e Hr. destruct (He e Hr) as [[k v] [Hin Hor]]. cbn [fst] in Hor.
    assert (Hk : In k (keys filters)).
    { unfold keys. apply in_map_iff. now exists (k, v). }
    exists k, v. split; [exact Hin|]. split; [auto|]. split; [auto|].
    destruct Hor as [[Hrf [Ha [->|[-> Hnone]]]]|[Hrf ->]]; auto.
    exfalso. exact (Hdecl (k, v) Hin Hnone).
Qed.

(** The outcome of the validator depends on the store only, not on the
    calls made so far. *)
Lemma validate_unique_outcome_store (entity : Entity) (create : bool)
    (w1 w2 : World Store) :
  store w1 = store w2 ->
  fst (validate_unique entity create w1) =
  fst (validate_unique entity create w2).
Proof.
  intros Hs. unfold validate_unique.
  destruct (unique_lookups entity create) as [filters excludes].
  now apply check_unique_outcome_store.
Qed.

End Runs.

(** ** The unique-constraint validator *)

Section Validator.

Context {Store Record : Type}.
Context `{Backend Store Record} `{Schema Record} `{FieldClass}.

(** C3, as amended.  On an entity type whose declared fields form a dict
    and whose unique fields are not named [page], [per_page], [order_by],
    [_excludes] or [self], the validator checks the filter fields one at a
    time, in declaration order: every query it makes carries one field and
    its value as the only filter, together with the whole exclude-set, the
    queries stop with the first field whose check finds a match, and the
    violation raised names that field alone.  Without a match every filter
    field is queried once and nothing is raised.  The store is left as it
    was. *)
Theorem validate_unique_stops_at_first_conflict
    (entity : Entity) (create : bool) (w : World Store) :
  NoDup (keys (declared_fields (meta_ entity))) ->
  plain_names (keys (unique_fields (meta_ entity))) = true ->
  let filters := filter_fields entity create in
  let excludes := exclude_fields entity create in
  let found kv :=
    Pagination_bool
      (filter_objects (store w) 1 10 (PyTuple []) (Some excludes) [kv]) in
  let (r, w') := validate_unique entity create w in
  store w' = store w /\
  calls w' =
    (calls w ++
     map (fun kv => CallFilter 1 10 (PyTuple []) (Some excludes) [kv])
         (until found filters))%list /\
  match find found filters with
  | Some (field_name, _) => r = inl (unique_violation field_name)
  | None => r = inr tt /\ until found filters = filters
  end.
Proof.
  intros Hnd Hp filters excludes found.
  rewrite (validate_unique_run entity create w Hnd Hp).
  fold filters excludes.
  change (conflicts (store w) excludes) with found.
  change (probe excludes)
    with (fun kv => CallFilter 1 10 (PyTuple []) (Some excludes) [kv]).
  cbn [store calls].
  split; [reflexivity|]. split; [reflexivity|].
  destruct (find found filters) as [[k v]|] eqn:Ef.
  - reflexivity.
  - split; [reflexivity|]. now apply until_no_match.
Qed.

(** The query that checks a field names that field or an exclude. *)
Lemma check_query_names (field_name : string) (ex : dict PyVal)
    (k : string) (v : PyVal) :
  queries_field field_name (call_of (check_query ex (k, v))) ->
  field_name = k \/ In field_name (keys ex).
Proof.
  unfold check_query, bind_keywords, call_of, queries_field.
  cbn [q_filters q_excludes List.filter fst dict_get with_excludes
       excludes_arg].
  intros [Hin|Hin].
  - destruct (negb (is_parameter k)); cbn in Hin; [|contradiction].
    destruct Hin as [<-|[]]. now left.
  - destruct (String.eqb k "_excludes"); [contradiction|now right].
Qed.

(** C4.  A unique field whose value on the entity is one of the empty
    sentinels is skipped by the validator: it is neither a filter nor an
    exclude, no query the validator makes names it, and no violation the
    validator raises is keyed by it. *)
Theorem empty_unique_field_is_skipped
    (entity : Entity) (create : bool) (field_name : string)
    (w : World Store) :
  py_in (getattr entity field_name PyNone) empty_values = true ->
  let (filters, excludes) := unique_lookups entity create in
  let (r, w') := validate_unique entity create w in
  ~ In field_name (keys filters) /\
  ~ In field_name (keys excludes) /\
  (exists made,
     calls w' = (calls w ++ made)%list /\
     forall c, In c made -> ~ queries_field field_name c) /\
  (forall e, r = inl e -> ~ keyed_by field_name e).
Proof.
  intros Hempty.
  pose proof (unique_lookups_nonempty entity create field_name) as Hne.
  unfold validate_unique.
  destruct (unique_lookups entity create) as [filters excludes].
  cbn [fst snd] in Hne.
  assert (Hf : ~ In field_name (keys filters)).
  { intros Hin. rewrite Hne in Hempty; [discriminate|now left]. }
  assert (Hx : ~ In field_name (keys excludes)).
  { intros Hin. rewrite Hne in Hempty; [discriminate|now right]. }
  destruct (check_unique_calls entity excludes filters w)
    as [made [Hw [Hc He]]].
  destruct (check_unique entity excludes filters w) as [r w'].
  cbn [fst snd] in Hw, He. subst w'. cbn [calls].
  repeat split; trivial.
  - exists made. split; [reflexivity|].
    intros c Hin Hq. destruct (Hc c Hin) as [[k v] [Hkv ->]].
    destruct (check_query_names _ _ _ _ Hq) as [->|Hin']; [|contradiction].
    apply Hf. unfold keys. apply in_map_iff.
    exists (k, v). split; [reflexivity|exact Hkv].
  - intros e Hr Hk.
    destruct (He e Hr) as [[k v] [Hkv [[_ [_ [->|[-> _]]]]|[_ ->]]]].
    + cbn in Hk. destruct Hk as [Heq|[]]. subst k.
      apply Hf. unfold keys. apply in_map_iff.
      exists (field_name, v). split; [reflexivity|exact Hkv].
    + exact Hk.
    + exact Hk.
Qed.

End Validator.

(** ** Reads: [get], [filter], [exists] *)

Section Reads.

Context {Store Record : Type}.
Context `{Backend Store Record} `{Schema Record} `{FieldClass}.

(** [get], whatever the name of the identifier field. *)
Lemma get_any (identifier : PyVal) (w : World Store) :
  get identifier w =
  if String.eqb (fst (id_field (cls_meta (entity_cls opts)))) "self" then
    (inl (TypeError "got multiple values for argument self"), w)
  else
    (match items (run_query (store w) (get_query identifier)) with
     | [] => inl (ObjectNotFoundError schema_cls_name identifier)
     | record :: _ => inr (to_entity record)
     end,
     log (call_of (get_query identifier)) w).
Proof.
  unfold get, bind_, _filter_objects_kw, get_query, id_filter.
  cbn [keys map fst find existsb].
  destruct (String.eqb _ "self") eqn:Es.
  - apply String.eqb_eq in Es. rewrite Es. reflexivity.
  - cbn [orb]. unfold first.
    destruct (items _) as [|record rest]; reflexivity.
Qed.

(** [get] when the identifier field bears no reserved name. *)
Lemma get_run (identifier : PyVal) (w : World Store) :
  reserved (fst (id_field (cls_meta (entity_cls opts)))) = false ->
  get identifier w =
  (match items (filter_objects (store w) 1 10 (PyTuple []) None
                               (id_filter identifier)) with
   | [] => inl (ObjectNotFoundError schema_cls_name identifier)
   | record :: _ => inr (to_entity record)
   end,
   log (CallFilter 1 10 (PyTuple []) None (id_filter identifier)) w).
Proof.
  intros Hr. rewrite get_any.
  destruct (reserved_false _ Hr) as [Hs _]. rewrite Hs.
  unfold get_query. rewrite bind_keywords_plain; [reflexivity|].
  unfold plain_names, keys, id_filter. cbn [map fst forallb].
  now rewrite Hr.
Qed.

Lemma convert_items_map (l : list Record) :
  convert_items l = map to_entity l.
Proof.
  unfold convert_items.
  assert (Hgen : forall acc,
            fold_left (fun entity_items item =>
                         (entity_items ++ [to_entity item])%list) l acc =
            (acc ++ map to_entity l)%list).
  { induction l as [|x l IH]; intros acc; simpl.
    - now rewrite app_nil_r.
    - rewrite IH, <- app_assoc. reflexivity. }
  apply Hgen.
Qed.

(** C5, as amended.  When the identifier field is not named [page],
    [per_page], [order_by], [_excludes] or [self], [get] makes one query,
    with the single filter that maps the identifier field to the
    identifier.  It raises [ObjectNotFoundError] exactly when the query
    returns no record, it raises nothing else, and otherwise it returns
    the schema's conversion of the first record. *)
Theorem get_first_record_or_not_found (identifier : PyVal) (w : World Store) :
  reserved (fst (id_field (cls_meta (entity_cls opts)))) = false ->
  let filters := [(fst (id_field (cls_meta (entity_cls opts))), identifier)] in
  let found := items (filter_objects (store w) 1 10 (PyTuple []) None filters) in
  let (r, w') := get identifier w in
  w' = log (CallFilter 1 10 (PyTuple []) None filters) w /\
  ((exists e, r = inl e) <-> found = []) /\
  (forall e, r = inl e -> e = ObjectNotFoundError schema_cls_name identifier) /\
  (forall record rest, found = record :: rest -> r = inr (to_entity record)).
Proof.
  intros Hr filters found. rewrite get_run by exact Hr.
  fold (id_filter identifier).
  unfold id_filter. fold filters. fold found.
  split; [reflexivity|].
  destruct found as [|record rest].
  - split; [split; [reflexivity|eauto]|]. split.
    + intros e He. now inversion He.
    + discriminate.
  - split; [split; [intros [e He]|]; discriminate|]. split.
    + discriminate.
    + intros record' rest' Hq. now inversion Hq.
Qed.

(** What [filter] does to the ordering: a missing (falsy) argument is
    replaced by the schema's default, and a value that is not iterable is
    wrapped in a list. *)
Lemma resolve_order_by_default (order_by : PyVal) :
  truthy order_by = false ->
  is_iterable default_order_by = true ->
  resolve_order_by order_by = default_order_by.
Proof.
  intros Ht Hi. unfold resolve_order_by. rewrite Ht. cbn [negb].
  rewrite Hi. reflexivity.
Qed.

Lemma resolve_order_by_not_iterable (order_by : PyVal) :
  truthy order_by = true ->
  is_iterable order_by = false ->
  resolve_order_by order_by = PyList [order_by].
Proof.
  intros Ht Hi. unfold resolve_order_by. rewrite Ht. cbn [negb].
  rewrite Hi. reflexivity.
Qed.

Lemma resolve_order_by_iterable (order_by : PyVal) :
  truthy order_by = true ->
  is_iterable order_by = true ->
  resolve_order_by order_by = order_by.
Proof.
  intros Ht Hi. unfold resolve_order_by. rewrite Ht. cbn [negb].
  rewrite Hi. reflexivity.
Qed.

(** C6, on the input that breaks it.  A single field name is a string, and
    a string is iterable: [filter] hands it to the query primitive as it
    is, where the one-element list is handed over as a list. *)
Theorem filter_passes_field_name_unwrapped (w : World Store) :
  snd (filter 1 10 (PyStr "name") None [] w) =
    log (CallFilter 1 10 (PyStr "name") None []) w /\
  snd (filter 1 10 (PyList [PyStr "name"]) None [] w) =
    log (CallFilter 1 10 (PyList [PyStr "name"]) None []) w /\
  resolve_order_by (PyStr "name") <> resolve_order_by (PyList [PyStr "name"]).
Proof. repeat split. discriminate. Qed.

(** C7.  [filter] returns the pagination of the query primitive with its
    items replaced by their conversions, in the same order: the i-th item
    is the conversion of the i-th record, and page, page size and total
    are those of the query. *)
Theorem filter_converts_items_in_order
    (page_ per_page_ : Z) (order_by : PyVal)
    (ex : option (dict PyVal)) (filters : dict PyVal) (w : World Store) :
  let order := resolve_order_by order_by in
  let q := filter_objects (store w) page_ per_page_ order ex filters in
  exists p,
    filter page_ per_page_ order_by ex filters w =
      (inr p, log (CallFilter page_ per_page_ order ex filters) w) /\
    items p = map to_entity (items q) /\
    List.length (items p) = List.length (items q) /\
    (forall i, nth_error (items p) i =
               option_map to_entity (nth_error (items q) i)) /\
    page p = page q /\ per_page p = per_page q /\ total p = total q.
Proof.
  intros order q. eexists. split; [reflexivity|].
  cbn [set_items items page per_page total]. fold order. fold q.
  rewrite convert_items_map.
  repeat split.
  - apply length_map.
  - intros i. apply nth_error_map.
Qed.

End Reads.


(** ** Writes: [create] and [update] *)

Section Writes.

Context {Store Record : Type}.
Context `{Backend Store Record} `{Schema Record} `{FieldClass}.

Lemma probes_no_write (ex : dict PyVal) (l : dict PyVal) :
  forallb (fun c => negb (is_write c)) (map (probe ex) l) = true.
Proof. induction l; simpl; auto. Qed.

Lemma find_witness {A} (p : A -> bool) (l : list A) (x : A) :
  In x l -> p x = true -> exists y, find p l = Some y.
Proof.
  intros Hin Hp. destruct (find p l) eqn:Ef; [eauto|].
  rewrite (find_none p l Ef x Hin) in Hp. discriminate.
Qed.

(** A unique field that is not empty and not an exclude is a filter. *)
Lemma filter_fields_In (entity : Entity) (create : bool)
    (k : string) (fld : Field) :
  In (k, fld) (unique_fields (meta_ entity)) ->
  nonempty_field entity (k, fld) = true ->
  is_exclude create (k, fld) = false ->
  In (lookup_of entity (k, fld)) (filter_fields entity create).
Proof.
  intros Hin Hne Hex. unfold filter_fields. apply in_map.
  apply filter_In. split; [exact Hin|]. now rewrite Hne, Hex.
Qed.


(** [create] when the validator raises: the exception is that of the
    validator and the create primitive is not reached. *)
Lemma create_rejected (args : list PyVal) (kwargs : dict PyVal)
    (entity : Entity) (w w' : World Store) (e : Exn) :
  cls_call (entity_cls opts) args kwargs = inr entity ->
  validate_unique entity true w = (inl e, w') ->
  create args kwargs w = (inl e, w').
Proof.
  intros Hcall Hv. unfold create, bind_, lift. now rewrite Hcall, Hv.
Qed.

(** [update] when the validator raises, likewise. *)
Lemma update_rejected (identifier : PyVal) (data : dict PyVal)
    (record : Record) (rest : list Record) (entity : Entity)
    (w w' : World Store) (e : Exn) :
  reserved (fst (id_field (cls_meta (entity_cls opts)))) = false ->
  items (filter_objects (store w) 1 10 (PyTuple []) None
                        (id_filter identifier)) = record :: rest ->
  cls_update (entity_cls opts) (to_entity record) data = inr entity ->
  validate_unique entity false
    (log (CallEntityUpdate (to_entity record) data)
         (log (CallFilter 1 10 (PyTuple []) None (id_filter identifier)) w))
  = (inl e, w') ->
  update identifier data w = (inl e, w').
Proof.
  intros Hr Hq Hup Hv. unfold update. unfold bind_ at 1.
  rewrite get_run by exact Hr. rewrite Hq.
  unfold bind_ at 1. unfold Entity_update. rewrite Hup.
  unfold bind_ at 1. now rewrite Hv.
Qed.





(** C10, as amended.  When the identifier field is not named [page],
    [per_page], [order_by], [_excludes] or [self] and the query for the
    identifier returns no record, [update] raises the
    [ObjectNotFoundError] of [get]: that query is the only call made, so
    the entity is not updated, the validator does not run, the update
    primitive is not called and the store is unchanged. *)
Theorem update_of_missing_raises_not_found
    (identifier : PyVal) (data : dict PyVal) (w : World Store) :
  reserved (fst (id_field (cls_meta (entity_cls opts)))) = false ->
  items (filter_objects (store w) 1 10 (PyTuple []) None
                        (id_filter identifier)) = [] ->
  let (r, w') := update identifier data w in
  r = inl (ObjectNotFoundError schema_cls_name identifier) /\
  store w' = store w /\
  calls w' =
    (calls w ++ [CallFilter 1 10 (PyTuple []) None (id_filter identifier)])%list.
Proof.
  intros Hr Hq. unfold update. unfold bind_ at 1.
  rewrite get_run by exact Hr. rewrite Hq.
  repeat split.
Qed.

End Writes.

(** ** Schema options *)

Section Options.

Context `{Inflection}.

(** C9, on the input that breaks it.  With [Meta.entity] bound to a
    string, which is truthy and no class, [issubclass] raises
    [TypeError]: the resolution does not fail with the
    [ConfigurationError] that says the option must be a subclass of
    [Entity]. *)
Theorem schema_opts_of_a_string_raises_type_error
    (supplied_name supplied_bind : option string)
    (supplied_order : option PyVal) (schema_cls_name : string) :
  RepositorySchemaOpts_init
    (mkSchemaMeta (Some (NotAClass (PyStr "Account")))
                  supplied_name supplied_bind supplied_order)
    schema_cls_name =
  inl (TypeError "issubclass() arg 1 must be a class").
Proof. reflexivity. Qed.

End Options.

(** ** On an adapter that keeps the contract of the query primitive *)

Section Contract.

Context {Store Record : Type}.
Context `{Backend Store Record} `{Schema Record} `{FieldClass}.
Context `{RecordView Store Record}.

(** The query primitive returns selected records of the store only, and
    its first page is not empty when the store has a selected record. *)
Hypothesis query_sound :
  forall st page_ per_page_ order ex filters r,
    In r (items (filter_objects st page_ per_page_ order ex filters)) ->
    In r (records st) /\ selected ex filters r = true.

Hypothesis query_first_page :
  forall st per_page_ order ex filters r,
    0 < per_page_ ->
    In r (records st) -> selected ex filters r = true ->
    items (filter_objects st 1 per_page_ order ex filters) <> [].

(** Whatever is bound to its other parameters, the query primitive
    returns no record that agrees with one of the excludes it is given. *)
Hypothesis query_excludes :
  forall st page_ per_page_ order d filters r,
    In r (items (query_objects st page_ per_page_ order (ArgDict d) filters)) ->
    In r (records st) /\ excluded (Some d) r = false.

Lemma Pagination_bool_true {A} (p : Pagination A) :
  Pagination_bool p = true <-> items p <> [].
Proof.
  unfold Pagination_bool. destruct (items p); simpl; split;
    congruence.
Qed.

(** The check of a field finds a match exactly when the field is
    taken. *)
Lemma conflicts_taken (st : Store) (ex : dict PyVal) (kv : string * PyVal) :
  conflicts st ex kv = true <-> taken st ex kv.
Proof.
  unfold conflicts, taken. rewrite Pagination_bool_true. split.
  - intros Hne. destruct (items _) as [|r rest] eqn:Eq; [congruence|].
    destruct (query_sound st 1 10 (PyTuple []) (Some ex) [kv] r)
      as [Hin Hsel].
    { rewrite Eq. now left. }
    exists r. split; [exact Hin|].
    unfold selected in Hsel. apply andb_true_iff in Hsel.
    destruct Hsel as [Hm Hx]. cbn [matches forallb] in Hm.
    rewrite andb_true_r in Hm. apply negb_true_iff in Hx. now split.
  - intros [r [Hin [Ha Hx]]].
    apply (query_first_page st 10 (PyTuple []) (Some ex) [kv] r);
      [lia|exact Hin|].
    unfold selected. cbn [matches forallb]. now rewrite Ha, Hx.
Qed.

(** C8, as amended.  When no filter is named [page], [per_page],
    [order_by], [_excludes] or [self], [exists] makes one query and
    returns a boolean, whatever the excludes and filters: it does not
    raise.  The boolean is [True] exactly when the store has a record
    that agrees with every filter and with no exclude, and [False] when
    it has none. *)
Theorem exists_iff_selected_record
    (ex : option (dict PyVal)) (filters : dict PyVal) (w : World Store) :
  plain_names (keys filters) = true ->
  exists b,
    exists_ ex filters w =
      (inr b, log (CallFilter 1 10 (PyTuple []) ex filters) w) /\
    (b = true <->
     exists r, In r (records (store w)) /\
               matches filters r = true /\ excluded ex r = false) /\
    ((forall r, In r (records (store w)) -> selected ex filters r = false)
     -> b = false).
Proof.
  intros Hp. eexists. split; [apply exists_run; exact Hp|].
  assert (Hiff :
    Pagination_bool (filter_objects (store w) 1 10 (PyTuple []) ex filters)
      = true <->
    exists r, In r (records (store w)) /\
              matches filters r = true /\ excluded ex r = false).
  { rewrite Pagination_bool_true. split.
    - intros Hne.
      destruct (items _) as [|r rest] eqn:Eq; [congruence|].
      destruct (query_sound (store w) 1 10 (PyTuple []) ex filters r)
        as [Hin Hsel].
      { rewrite Eq. now left. }
      exists r. split; [exact Hin|].
      unfold selected in Hsel. apply andb_true_iff in Hsel.
      destruct Hsel as [Hm Hx]. apply negb_true_iff in Hx. now split.
    - intros [r [Hin [Hm Hx]]].
      apply (query_first_page (store w) 10 (PyTuple []) ex filters r);
        [lia|exact Hin|].
      unfold selected. now rewrite Hm, Hx. }
  split; [exact Hiff|].
  intros Hnone.
  destruct (Pagination_bool _) eqn:Eb; [|reflexivity].
  destruct (proj1 Hiff eq_refl) as [r [Hin [Hm Hx]]].
  specialize (Hnone r Hin). unfold selected in Hnone.
  rewrite Hm, Hx in Hnone. discriminate.
Qed.


Lemma exclude_fields_create (entity : Entity) :
  exclude_fields entity true = [].
Proof.
  unfold exclude_fields, is_exclude. cbn [negb andb].
  induction (unique_fields (meta_ entity)) as [|nf l IH]; [reflexivity|].
  cbn [List.filter]. rewrite andb_false_r. exact IH.
Qed.


Lemma find_split {A} (p : A -> bool) (l : list A) (x : A) :
  find p l = Some x ->
  exists before after,
    l = (before ++ x :: after)%list /\ p x = true /\
    forall y, In y before -> p y = false.
Proof.
  induction l as [|a l IH]; [discriminate|]. cbn [find].
  destruct (p a) eqn:Ea.
  - intros Hx. inversion Hx; subst a. exists [], l.
    repeat split; trivial. intros y [].
  - intros Hx. destruct (IH Hx) as [before [after [-> [Hp Hb]]]].
    exists (a :: before), after. repeat split; trivial.
    intros y [<-|Hy]; auto.
Qed.

(** The run of [create] once its entity is built, and of [update] once
    its entity is fetched and updated, on unique fields that bear no
    reserved name. *)
Lemma create_run (args : list PyVal) (kwargs : dict PyVal)
    (entity : Entity) (w : World Store) :
  NoDup (keys (declared_fields (meta_ entity))) ->
  plain_names (keys (unique_fields (meta_ entity))) = true ->
  cls_call (entity_cls opts) args kwargs = inr entity ->
  let filters := filter_fields entity true in
  let found := conflicts (store w) [] in
  let cs := (calls w ++ map (probe []) (until found filters))%list in
  create args kwargs w =
  match find found filters with
  | Some kv => (inl (unique_violation (fst kv)), mkWorld (store w) cs)
  | None =>
      (fst (create_object (store w) entity),
       mkWorld (snd (create_object (store w) entity))
               (cs ++ [CallCreate entity]))
  end.
Proof.
  intros Hnd Hp Hcall filters found cs.
  unfold create, bind_, lift. rewrite Hcall.
  rewrite (validate_unique_run entity true w Hnd Hp). cbv zeta.
  rewrite exclude_fields_create. fold filters found cs.
  destruct (find found filters); [reflexivity|].
  unfold _create_object. cbn [store calls].
  destruct (create_object (store w) entity) as [[e|persisted] st];
    reflexivity.
Qed.

Lemma update_run (ident : PyVal) (data : dict PyVal)
    (record : Record) (rest : list Record) (entity : Entity)
    (w : World Store) :
  NoDup (keys (declared_fields (meta_ entity))) ->
  plain_names (keys (unique_fields (meta_ entity))) = true ->
  reserved (fst (id_field (cls_meta (entity_cls opts)))) = false ->
  items (filter_objects (store w) 1 10 (PyTuple []) None
                        (id_filter ident)) = record :: rest ->
  cls_update (entity_cls opts) (to_entity record) data = inr entity ->
  let filters := filter_fields entity false in
  let excludes := exclude_fields entity false in
  let found := conflicts (store w) excludes in
  let cs := (calls w ++
             [CallFilter 1 10 (PyTuple []) None (id_filter ident);
              CallEntityUpdate (to_entity record) data] ++
             map (probe excludes) (until found filters))%list in
  update ident data w =
  match find found filters with
  | Some kv => (inl (unique_violation (fst kv)), mkWorld (store w) cs)
  | None =>
      (fst (update_object (store w) entity),
       mkWorld (snd (update_object (store w) entity))
               (cs ++ [CallUpdate entity]))
  end.
Proof.
  intros Hnd Hp Hr Hq Hup filters excludes found cs.
  unfold update. unfold bind_ at 1. rewrite get_run by exact Hr.
  rewrite Hq. unfold bind_ at 1. unfold Entity_update. rewrite Hup.
  unfold bind_.
  rewrite (validate_unique_run entity false _ Hnd Hp). cbv zeta.
  cbn [log store calls]. fold filters excludes found.
  assert (Hcs : (((calls w ++
                   [CallFilter 1 10 (PyTuple []) None (id_filter ident)]) ++
                  [CallEntityUpdate (to_entity record) data]) ++
                 map (probe excludes) (until found filters) = cs)%list).
  { unfold cs. rewrite <- !app_assoc. reflexivity. }
  rewrite Hcs.
  destruct (find found filters); [reflexivity|].
  unfold _update_object. cbn [store calls].
  destruct (update_object (store w) entity) as [[e|persisted] st];
    reflexivity.
Qed.




(** C1, as amended.  Take an entity type whose declared fields form a
    dict and whose unique fields are not named [page], [per_page],
    [order_by], [_excludes] or [self].  Let a unique field of the entity
    hold a value that is not an empty sentinel, let it not be the
    identifier when the entity is updated, and let the store hold a record
    with that value of the field that the exclude-set does not rule out.
    Then [create], and [update], raise the violation of the first filter
    field in declaration order for which the store holds such a record,
    which is this field when no other one has a match; the store is
    unchanged and no write primitive has been called. *)
Theorem unique_conflict_blocks_write
    (entity : Entity) (mode : bool) (k : string) (fld : Field) (st : Store) :
  NoDup (keys (declared_fields (meta_ entity))) ->
  plain_names (keys (unique_fields (meta_ entity))) = true ->
  In (k, fld) (unique_fields (meta_ entity)) ->
  nonempty_field entity (k, fld) = true ->
  is_exclude mode (k, fld) = false ->
  taken st (exclude_fields entity mode) (lookup_of entity (k, fld)) ->
  exists k0 v0,
    first_taken st (exclude_fields entity mode)
                (filter_fields entity mode) (k0, v0) /\
    ((forall kv, In kv (filter_fields entity mode) ->
        taken st (exclude_fields entity mode) kv ->
        fst kv = k) -> k0 = k) /\
    (mode = true ->
     forall args kwargs w,
       store w = st ->
       cls_call (entity_cls opts) args kwargs = inr entity ->
       exists w',
         create args kwargs w = (inl (unique_violation k0), w') /\
         store w' = st /\ no_write_since w w') /\
    (mode = false ->
     forall ident data w record rest,
       store w = st ->
       reserved (fst (id_field (cls_meta (entity_cls opts)))) = false ->
       items (filter_objects st 1 10 (PyTuple []) None
                             (id_filter ident)) = record :: rest ->
       cls_update (entity_cls opts) (to_entity record) data = inr entity ->
       exists w',
         update ident data w = (inl (unique_violation k0), w') /\
         store w' = st /\ no_write_since w w').
Proof.
  intros Hnd Hp Hin Hne Hex Htaken.
  pose proof (filter_fields_In entity mode k fld Hin Hne Hex) as Hf.
  pose proof (proj2 (conflicts_taken _ _ _) Htaken) as Hc.
  destruct (find_witness _ _ _ Hf Hc) as [[k0 v0] Hfind].
  exists k0, v0. split; [|split; [|split]].
  - destruct (find_split _ _ _ Hfind) as [before [after [Hl [Hc0 Hb]]]].
    exists before, after. split; [exact Hl|].
    split; [now apply conflicts_taken|].
    intros kv' Hin' Ht. apply conflicts_taken in Ht.
    rewrite (Hb kv' Hin') in Ht. discriminate.
  - intros Honly. destruct (find_some _ _ Hfind) as [Hin0 Hc0].
    apply conflicts_taken in Hc0. exact (Honly _ Hin0 Hc0).
  - intros -> args kwargs w <- Hcall.
    rewrite (create_run args kwargs entity w Hnd Hp Hcall). cbv zeta.
    rewrite exclude_fields_create in Hfind. rewrite Hfind.
    eexists. split; [reflexivity|]. split; [reflexivity|].
    eexists. split; [reflexivity|]. apply probes_no_write.
  - intros -> ident data w record rest <- Hr Hq Hup.
    rewrite (update_run ident data record rest entity w Hnd Hp Hr Hq Hup).
    cbv zeta. rewrite Hfind.
    eexists. split; [reflexivity|]. split; [reflexivity|].
    eexists. split; [reflexivity|].
    cbn [app forallb is_write negb andb CallFilter]. apply probes_no_write.
Qed.

End Contract.

(** * Further properties *)

(** ** The ordering that [filter] hands to the query primitive *)

Section Ordering.

Context {Store Record : Type}.
Context `{Backend Store Record} `{Schema Record} `{FieldClass}.

(** Whatever the caller passes and whatever the default of the schema
    is, the ordering that results is iterable. *)
Lemma resolve_order_by_is_iterable (order_by : PyVal) :
  is_iterable (resolve_order_by order_by) = true.
Proof.
  unfold resolve_order_by.
  destruct (negb (truthy order_by));
    match goal with
    | |- context [negb (is_iterable ?a)] =>
        destruct (is_iterable a) eqn:Ei; cbn [negb]; [exact Ei|reflexivity]
    end.
Qed.

(** X1.  The one query that [filter] makes always carries an iterable
    ordering, whatever [order_by] the caller passes and whatever the
    schema's default is; [filter] itself raises nothing. *)
Theorem filter_queries_with_iterable_order
    (page_ per_page_ : Z) (order_by : PyVal)
    (ex : option (dict PyVal)) (filters : dict PyVal) (w : World Store) :
  exists order p,
    filter page_ per_page_ order_by ex filters w =
      (inr p, log (CallFilter page_ per_page_ order ex filters) w) /\
    is_iterable order = true.
Proof.
  exists (resolve_order_by order_by). eexists.
  split; [reflexivity|apply resolve_order_by_is_iterable].
Qed.

(** X2.  Settling the ordering twice is settling it once: [filter] called
    with the ordering that an earlier call handed to the query primitive
    behaves as that earlier call. *)
Theorem filter_order_by_idempotent
    (page_ per_page_ : Z) (order_by : PyVal)
    (ex : option (dict PyVal)) (filters : dict PyVal) (w : World Store) :
  resolve_order_by (resolve_order_by order_by) = resolve_order_by order_by /\
  filter page_ per_page_ (resolve_order_by order_by) ex filters w =
    filter page_ per_page_ order_by ex filters w.
Proof.
  assert (Hidem : resolve_order_by (resolve_order_by order_by) =
                  resolve_order_by order_by).
  { pose proof (resolve_order_by_is_iterable order_by) as Hit.
    destruct (truthy (resolve_order_by order_by)) eqn:Etr.
    - unfold resolve_order_by at 1. rewrite Etr. cbn [negb].
      rewrite Hit. reflexivity.
    - unfold resolve_order_by at 1. rewrite Etr. cbn [negb].
      unfold resolve_order_by in Etr, Hit |- *.
      destruct (truthy order_by) eqn:Et; cbn [negb] in *.
      + destruct (is_iterable order_by) eqn:Ei; cbn [negb] in *.
        * congruence.
        * cbn in Etr. discriminate.
      + destruct (is_iterable default_order_by) eqn:Ei; cbn [negb] in *.
        * reflexivity.
        * cbn in Etr. discriminate. }
  split; [exact Hidem|]. unfold filter. now rewrite Hidem.
Qed.

(** X3.  An ordering that is falsy ([None], [0], the empty string, list
    or tuple) is the same to [filter] as no ordering at all: the query
    carries the default of the schema (in a list when that default is not
    iterable). *)
Theorem filter_falsy_order_by_is_default
    (page_ per_page_ : Z) (order_by : PyVal)
    (ex : option (dict PyVal)) (filters : dict PyVal) (w : World Store) :
  truthy order_by = false ->
  snd (filter page_ per_page_ order_by ex filters w) =
    log (CallFilter page_ per_page_
           (if is_iterable default_order_by then default_order_by
            else PyList [default_order_by])
           ex filters) w /\
  filter page_ per_page_ order_by ex filters w =
    filter page_ per_page_ (PyTuple []) ex filters w.
Proof.
  intros Ht. unfold filter, resolve_order_by. rewrite Ht. cbn [negb truthy].
  split; [|reflexivity]. unfold bind_, _filter_objects. cbn [snd ret].
  destruct (is_iterable default_order_by); reflexivity.
Qed.

(** X4.  When the identifier field is not named [page], [per_page],
    [order_by], [_excludes] or [self], [get] finds the identifier exactly
    when [exists], asked without excludes for the identifier field,
    answers [True]; both make the same single query: page 1, 10 per page,
    no ordering, no excludes, the identifier as only filter. *)
Theorem get_succeeds_iff_exists (identifier : PyVal) (w : World Store) :
  reserved (fst (id_field (cls_meta (entity_cls opts)))) = false ->
  ((exists entity, fst (get identifier w) = inr entity) <->
   fst (exists_ None (id_filter identifier) w) = inr true) /\
  snd (get identifier w) =
    log (CallFilter 1 10 (PyTuple []) None (id_filter identifier)) w /\
  snd (exists_ None (id_filter identifier) w) =
    log (CallFilter 1 10 (PyTuple []) None (id_filter identifier)) w.
Proof.
  intros Hr. rewrite get_run by exact Hr. rewrite exists_run.
  - cbn [fst snd]. split; [|split; reflexivity].
    unfold Pagination_bool.
    destruct (items _) as [|record rest]; cbn; split.
    + intros [entity He]. discriminate.
    + intros He. discriminate.
    + reflexivity.
    + eauto.
  - unfold plain_names, keys, id_filter. cbn [map fst forallb].
    now rewrite Hr.
Qed.

End Ordering.

(** ** The validator on any entity *)

Section ValidatorAtLarge.

Context {Store Record : Type}.
Context `{Backend Store Record} `{Schema Record} `{FieldClass}.

(** X5.  The validator reads and never writes.  On any entity it leaves
    the store as it was and calls no write primitive; it either passes, or
    raises for one unique field of the entity whose value is not an empty
    sentinel: the violation of that field, or, when that field is named
    [self] or [_excludes], the [TypeError] of the call of [exists].  A
    [KeyError] from the table of declared fields cannot happen. *)
Theorem validate_unique_reads_only
    (entity : Entity) (create : bool) (w : World Store) :
  let (r, w') := validate_unique entity create w in
  store w' = store w /\
  no_write_since w w' /\
  (r = inr tt \/
   exists field_name,
     In field_name (keys (unique_fields (meta_ entity))) /\
     py_in (getattr entity field_name PyNone) empty_values = false /\
     (r = inl (unique_violation field_name) \/
      refused field_name = true /\
      r = inl (TypeError
                 ("got multiple values for argument " ++ field_name)))).
Proof.
  destruct (validate_unique_shape entity create w)
    as [made [Hw [Hnw [_ He]]]].
  destruct (validate_unique entity create w) as [r w'].
  cbn [fst snd] in Hw, He. subst w'. cbn [store].
  split; [reflexivity|]. split; [exists made; now split|].
  destruct r as [e|[]]; [right|now left].
  destruct (He e eq_refl) as [k [v [_ [Hk [Hne [[_ [_ ->]]|[Hrf ->]]]]]]];
    exists k; auto.
Qed.

(** X6.  When no unique field of the entity holds a value (each is an
    empty sentinel, or there is no unique field), the validator passes
    without a single call. *)
Theorem validate_unique_of_empty_fields
    (entity : Entity) (create : bool) (w : World Store) :
  (forall nf, In nf (unique_fields (meta_ entity)) ->
     py_in (getattr entity (fst nf) PyNone) empty_values = true) ->
  validate_unique entity create w = (inr tt, w).
Proof.
  intros Hall. unfold validate_unique, unique_lookups.
  assert (Hfold : forall l acc,
            (forall nf, In nf l ->
               py_in (getattr entity (fst nf) PyNone) empty_values = true) ->
            fold_left (unique_step entity create) l acc = acc).
  { induction l as [|[n fld] l IH]; intros [f x] Hl; [reflexivity|].
    cbn [fold_left]. unfold unique_step at 2.
    pose proof (Hl (n, fld) (or_introl eq_refl)) as He. cbn [fst] in He.
    rewrite He. apply IH. intros nf Hin. apply Hl. now right. }
  rewrite Hfold by exact Hall. reflexivity.
Qed.

Lemma fold_left_ext_in {A B} (f g : A -> B -> A) (l : list B) :
  (forall a x, In x l -> f a x = g a x) ->
  forall a, fold_left f l a = fold_left g l a.
Proof.
  induction l as [|x l IH]; intros Hfg a; [reflexivity|].
  cbn [fold_left]. rewrite Hfg by now left.
  apply IH. intros a' y Hy. apply Hfg. now right.
Qed.

(** X7.  The validator looks at the unique fields only: two entities of
    one type that agree on the value of every unique field are validated
    alike, with the same calls and the same outcome, whatever their other
    fields hold. *)
Theorem validate_unique_depends_on_unique_fields
    (e1 e2 : Entity) (create : bool) (w : World Store) :
  meta_ e1 = meta_ e2 ->
  (forall nf, In nf (unique_fields (meta_ e1)) ->
     getattr e1 (fst nf) PyNone = getattr e2 (fst nf) PyNone) ->
  validate_unique e1 create w = validate_unique e2 create w.
Proof.
  intros Hm Hag. unfold validate_unique.
  assert (Hl : unique_lookups e1 create = unique_lookups e2 create).
  { unfold unique_lookups. rewrite <- Hm.
    apply fold_left_ext_in. intros [f x] [n fld] Hin.
    pose proof (Hag (n, fld) Hin) as Hv. cbn [fst] in Hv.
    unfold unique_step. now rewrite Hv. }
  rewrite Hl. destruct (unique_lookups e2 create) as [filters excludes].
  now apply check_unique_meta.
Qed.

End ValidatorAtLarge.

(** ** The one write of [create] and of [update] *)

Section OneWrite.

Context {Store Record : Type}.
Context `{Backend Store Record} `{Schema Record} `{FieldClass}.

(** X8.  [create] writes at most once.  Either it raises with the store
    unchanged and no write primitive called, or the entity built from the
    arguments passed the validator and the last call, the only write, hands
    that entity to the create primitive, whose result (the persisted
    entity or the exception it raises) and store are those of [create].
    The update primitive is never called. *)
Theorem create_writes_at_most_once
    (args : list PyVal) (kwargs : dict PyVal) (w : World Store) :
  let (r, w') := create args kwargs w in
  exists made,
    calls w' = (calls w ++ made)%list /\
    ((forallb (fun c => negb (is_write c)) made = true /\
      store w' = store w /\ exists e, r = inl e) \/
     (exists entity queries,
        made = (queries ++ [CallCreate entity])%list /\
        forallb (fun c => negb (is_write c)) queries = true /\
        cls_call (entity_cls opts) args kwargs = inr entity /\
        fst (validate_unique entity true w) = inr tt /\
        (r, store w') = create_object (store w) entity)).
Proof.
  unfold create, bind_, lift.
  destruct (cls_call (entity_cls opts) args kwargs) as [e|entity] eqn:Ec.
  - exists []. split; [now rewrite app_nil_r|]. left. cbn. eauto.
  - destruct (validate_unique_shape entity true w)
      as [made [Hw [Hnw _]]].
    destruct (validate_unique entity true w) as [[e|[]] w1] eqn:Ev;
      cbn [snd] in Hw; subst w1.
    + exists made. split; [reflexivity|]. left. cbn. eauto.
    + unfold _create_object. cbn [store calls].
      destruct (create_object (store w) entity) as [r st] eqn:Eo.
      destruct r as [e|persisted]; unfold ret;
        (exists (made ++ [CallCreate entity])%list;
         cbn [calls store]; split; [now rewrite app_assoc|]; right;
         exists entity, made; split; [reflexivity|];
         split; [exact Hnw|];
         split; [reflexivity|]; split; [now rewrite Ev|now rewrite Eo]).
Qed.

(** X9.  [update] writes at most once.  Either it raises with the store
    unchanged and no write primitive called (the identifier is not found,
    the entity refuses the data, the validator raises), or the first
    record that the query of [get] returns, converted and updated with the
    data, passed the validator in update mode and the last call, the only
    write, hands that updated entity to the update primitive, whose result
    and store are those of [update].  The create primitive is never
    called. *)
Theorem update_writes_at_most_once
    (identifier : PyVal) (data : dict PyVal) (w : World Store) :
  let (r, w') := update identifier data w in
  exists made,
    calls w' = (calls w ++ made)%list /\
    ((forallb (fun c => negb (is_write c)) made = true /\
      store w' = store w /\ exists e, r = inl e) \/
     (exists record entity queries,
        made = (queries ++ [CallUpdate entity])%list /\
        forallb (fun c => negb (is_write c)) queries = true /\
        first (run_query (store w) (get_query identifier)) = Some record /\
        cls_update (entity_cls opts) (to_entity record) data = inr entity /\
        fst (validate_unique entity false w) = inr tt /\
        (r, store w') = update_object (store w) entity)).
Proof.
  unfold update. unfold bind_ at 1. rewrite get_any.
  destruct (String.eqb _ "self").
  { exists []. split; [now rewrite app_nil_r|]. left. cbn. eauto. }
  unfold first.
  destruct (items _) as [|record rest] eqn:Eq.
  - eexists. split; [reflexivity|]. left. cbn. eauto.
  - unfold bind_ at 1. unfold Entity_update.
    destruct (cls_update (entity_cls opts) (to_entity record) data)
      as [e|entity] eqn:Eu.
    + eexists. split; [cbn [log calls]; now rewrite <- app_assoc|].
      left. cbn. eauto.
    + set (w2 := log (CallEntityUpdate (to_entity record) data)
                     (log (call_of (get_query identifier)) w)).
      assert (Hs : store w2 = store w) by reflexivity.
      pose proof (validate_unique_outcome_store entity false w2 w Hs) as Hv.
      destruct (validate_unique_shape entity false w2)
        as [made [Hw [Hnw _]]].
      unfold bind_.
      destruct (validate_unique entity false w2) as [[e|[]] w3] eqn:Ev;
        cbn [fst snd] in Hw, Hv; subst w3.
      * eexists. split.
        -- cbn [calls w2 log]. rewrite <- !app_assoc. reflexivity.
        -- left. cbn [app forallb is_write negb andb call_of].
           split; [exact Hnw|]. cbn. eauto.
      * unfold _update_object. cbn [store calls].
        change (store w2) with (store w).
        destruct (update_object (store w) entity) as [r st] eqn:Eo.
        assert (Hmade :
          ((((calls w ++ [call_of (get_query identifier)])
              ++ [CallEntityUpdate (to_entity record) data])
             ++ made)
            ++ [CallUpdate entity] =
          calls w ++
            (([call_of (get_query identifier);
               CallEntityUpdate (to_entity record) data]
              ++ made)
             ++ [CallUpdate entity]))%list).
        { rewrite <- !app_assoc. reflexivity. }
        destruct r as [e|persisted]; unfold ret;
          (eexists; split; [cbn [calls w2 log]; exact Hmade|];
           right; exists record, entity; eexists;
           split; [reflexivity|];
           split; [cbn [app forallb is_write negb andb call_of];
                   exact Hnw|];
           repeat split; auto; now rewrite Eo).
Qed.

End OneWrite.

(** ** What the validator decides, on an adapter that keeps the contract *)

Section ContractAtLarge.

Context {Store Record : Type}.
Context `{Backend Store Record} `{Schema Record} `{FieldClass}.
Context `{RecordView Store Record}.

Hypothesis query_sound :
  forall st page_ per_page_ order ex filters r,
    In r (items (filter_objects st page_ per_page_ order ex filters)) ->
    In r (records st) /\ selected ex filters r = true.

Hypothesis query_first_page :
  forall st per_page_ order ex filters r,
    0 < per_page_ ->
    In r (records st) -> selected ex filters r = true ->
    items (filter_objects st 1 per_page_ order ex filters) <> [].

(** A first page is not empty exactly when the store has a selected
    record. *)
Lemma first_page_nonempty_iff (st : Store) (per_page_ : Z) (order : PyVal)
    (ex : option (dict PyVal)) (filters : dict PyVal) :
  0 < per_page_ ->
  items (filter_objects st 1 per_page_ order ex filters) <> [] <->
  exists r, In r (records st) /\ selected ex filters r = true.
Proof.
  intros Hpos. split.
  - intros Hne. destruct (items _) as [|r rest] eqn:Eq; [congruence|].
    exists r. apply (query_sound st 1 per_page_ order ex filters).
    rewrite Eq. now left.
  - intros [r [Hin Hsel]]. now apply (query_first_page st _ _ _ _ r).
Qed.

Lemma conflicts_iff (st : Store) (ex : dict PyVal) (kv : string * PyVal) :
  conflicts st ex kv = true <->
  exists r, In r (records st) /\ agrees r kv = true /\
            excluded (Some ex) r = false.
Proof.
  unfold conflicts, Pagination_bool.
  assert (Hlen : forall l : list Record,
            negb (Nat.eqb (List.length l) 0) = true <-> l <> []).
  { intros [|x l]; cbn; split; congruence. }
  rewrite Hlen, first_page_nonempty_iff by lia.
  split; intros [r [Hin Hsel]]; exists r; (split; [exact Hin|]).
  - unfold selected in Hsel. apply andb_true_iff in Hsel.
    destruct Hsel as [Hm Hx]. cbn [matches forallb] in Hm.
    rewrite andb_true_r in Hm. apply negb_true_iff in Hx. now split.
  - destruct Hsel as [Ha Hx]. unfold selected. cbn [matches forallb].
    now rewrite Ha, Hx.
Qed.

(** X10.  On an adapter that keeps the contract of the query primitive,
    and an entity type whose declared fields form a dict and whose unique
    fields are not named [page], [per_page], [order_by], [_excludes] or
    [self], the validator passes exactly when every stored record that
    agrees with the entity on a filter field is ruled out by the
    exclude-set: on create, when no stored record shares a non-empty
    unique value with the entity. *)
Theorem validate_unique_passes_iff
    (entity : Entity) (create : bool) (w : World Store) :
  NoDup (keys (declared_fields (meta_ entity))) ->
  plain_names (keys (unique_fields (meta_ entity))) = true ->
  fst (validate_unique entity create w) = inr tt <->
  (forall kv r,
     In kv (filter_fields entity create) ->
     In r (records (store w)) ->
     agrees r kv = true ->
     excluded (Some (exclude_fields entity create)) r = true).
Proof.
  intros Hnd Hp. rewrite (validate_unique_run entity create w Hnd Hp).
  cbv zeta. cbn [fst].
  destruct (find _ _) as [kv|] eqn:Ef; split.
  - discriminate.
  - intros Hall. destruct (find_some _ _ Ef) as [Hin Hc].
    apply conflicts_iff in Hc. destruct Hc as [r [Hr [Ha Hx]]].
    rewrite (Hall kv r Hin Hr Ha) in Hx. discriminate.
  - intros _ kv r Hin Hr Ha.
    destruct (excluded (Some (exclude_fields entity create)) r) eqn:Ex;
      [reflexivity|].
    assert (Hc : conflicts (store w) (exclude_fields entity create) kv = true).
    { apply conflicts_iff. eauto. }
    rewrite (find_none _ _ Ef kv Hin) in Hc. discriminate.
  - reflexivity.
Qed.

(** X11.  On such an adapter, and for filters that are not named [page],
    [per_page], [order_by], [_excludes] or [self] (as the keywords that
    [filter] collects never are), [exists] answers [True] exactly when the
    first page that [filter] returns for the same excludes and filters is
    not empty, whatever the page size and the ordering asked of
    [filter]. *)
Theorem exists_iff_filter_finds
    (per_page_ : Z) (order_by : PyVal)
    (ex : option (dict PyVal)) (filters : dict PyVal) (w : World Store) :
  plain_names (keys filters) = true ->
  0 < per_page_ ->
  fst (exists_ ex filters w) = inr true <->
  (exists p, fst (filter 1 per_page_ order_by ex filters w) = inr p /\
             items p <> []).
Proof.
  intros Hp Hpos. rewrite exists_run by exact Hp.
  cbn [fst]. unfold filter, bind_.
  cbn [_filter_objects fst ret]. rewrite convert_items_map.
  assert (Hlen : forall l : list Record,
            negb (Nat.eqb (List.length l) 0) = true <-> l <> []).
  { intros [|x l]; cbn; split; congruence. }
  split.
  - intros Hb. eexists. split; [reflexivity|]. cbn [set_items items].
    assert (Hq : items (filter_objects (store w) 1 10 (PyTuple []) ex filters)
                 <> []).
    { apply Hlen. unfold Pagination_bool in Hb. congruence. }
    apply first_page_nonempty_iff in Hq; [|lia].
    apply (first_page_nonempty_iff (store w) per_page_
             (resolve_order_by order_by) ex filters Hpos) in Hq.
    destruct (items _); [congruence|discriminate].
  - intros [p [Hpg Hne]]. inversion Hpg; subst p; clear Hpg.
    cbn [set_items items] in Hne. f_equal. unfold Pagination_bool.
    apply Hlen. apply first_page_nonempty_iff; [lia|].
    apply (first_page_nonempty_iff (store w) per_page_
             (resolve_order_by order_by) ex filters Hpos).
    destruct (items _); [exfalso; now apply Hne|discriminate].
Qed.

Lemma filter_fields_update_create (entity : Entity) (kv : string * PyVal) :
  In kv (filter_fields entity false) -> In kv (filter_fields entity true).
Proof.
  unfold filter_fields. intros Hin. apply in_map_iff in Hin.
  destruct Hin as [nf [Heq Hin]]. apply in_map_iff. exists nf.
  split; [exact Heq|]. apply filter_In in Hin. apply filter_In.
  destruct Hin as [Hin Hc]. split; [exact Hin|].
  apply andb_true_iff in Hc. destruct Hc as [Hne _].
  unfold is_exclude. cbn [negb andb]. now rewrite Hne.
Qed.

(** X13.  On such an adapter and entity type, an entity that passes the
    validator as a new entity passes it as an updated one too, against the
    same store: update mode checks no field that create mode does not
    check, and its exclude-set only rules records out. *)
Theorem validate_unique_create_implies_update
    (entity : Entity) (w : World Store) :
  NoDup (keys (declared_fields (meta_ entity))) ->
  plain_names (keys (unique_fields (meta_ entity))) = true ->
  fst (validate_unique entity true w) = inr tt ->
  fst (validate_unique entity false w) = inr tt.
Proof.
  intros Hnd Hp. rewrite !validate_unique_run by assumption.
  cbv zeta. cbn [fst]. rewrite exclude_fields_create.
  destruct (find (conflicts (store w) []) (filter_fields entity true))
    as [kv|] eqn:Ec; [discriminate|]. intros _.
  destruct (find _ (filter_fields entity false)) as [kv|] eqn:Eu;
    [|reflexivity].
  destruct (find_some _ _ Eu) as [Hin Hc].
  apply conflicts_iff in Hc. destruct Hc as [r [Hr [Ha _]]].
  assert (Hc : conflicts (store w) [] kv = true).
  { apply conflicts_iff. exists r. repeat split; trivial. }
  rewrite (find_none _ _ Ec kv (filter_fields_update_create _ _ Hin)) in Hc.
  discriminate.
Qed.

(** X16.  On an adapter whose query returns selected records only, and
    with an identifier field that is not named [page], [per_page],
    [order_by], [_excludes] or [self]: when no stored record has the
    identifier, [get] raises [ObjectNotFoundError], and so does [update],
    after that one query, with the store as it was and no write primitive
    called. *)
Theorem absent_identifier_is_not_found
    (identifier : PyVal) (data : dict PyVal) (w : World Store) :
  reserved (fst (id_field (cls_meta (entity_cls opts)))) = false ->
  (forall r, In r (records (store w)) ->
     agrees r (fst (id_field (cls_meta (entity_cls opts))), identifier)
       = false) ->
  let not_found := inl (ObjectNotFoundError schema_cls_name identifier) in
  let queried :=
    log (CallFilter 1 10 (PyTuple []) None (id_filter identifier)) w in
  get identifier w = (not_found, queried) /\
  update identifier data w = (not_found, queried).
Proof.
  intros Hr Hnone not_found queried.
  assert (Hq : items (filter_objects (store w) 1 10 (PyTuple []) None
                                     (id_filter identifier)) = []).
  { destruct (items _) as [|r rest] eqn:Eq; [reflexivity|]. exfalso.
    destruct (query_sound (store w) 1 10 (PyTuple []) None
                          (id_filter identifier) r) as [Hin Hsel].
    { rewrite Eq. now left. }
    unfold selected, id_filter in Hsel. cbn [matches forallb] in Hsel.
    rewrite (Hnone r Hin) in Hsel. discriminate. }
  assert (Hget : get identifier w = (not_found, queried)).
  { rewrite get_run by exact Hr. now rewrite Hq. }
  split; [exact Hget|].
  unfold update. unfold bind_ at 1. now rewrite Hget.
Qed.

End ContractAtLarge.

(** ** The name of a resolved schema *)

Section SchemaName.

Context `{Inflection}.

(** X12.  A schema name that is supplied but empty counts as not
    supplied, so the name of a resolved schema is never empty as long as
    the underscored class name is not. *)
Theorem resolved_schema_name_not_empty
    (meta : Meta) (schema_cls_name : string) (o : RepositorySchemaOpts) :
  underscore schema_cls_name <> "" ->
  RepositorySchemaOpts_init meta schema_cls_name = inr o ->
  schema_name o <> "" /\
  (meta_schema_name meta = Some "" ->
   schema_name o = underscore schema_cls_name).
Proof.
  intros Hne. unfold RepositorySchemaOpts_init. cbv zeta.
  destruct (meta_entity meta) as [[c|n|v]|];
    [|discriminate|destruct (negb (object_truthy (NotAClass v)));
                    discriminate|discriminate].
  cbn [object_truthy negb]. intros Ho. inversion Ho; subst o; clear Ho. cbn [schema_name].
  destruct (meta_schema_name meta) as [s|].
  - destruct (String.eqb s "") eqn:Es.
    + split; [exact Hne|reflexivity].
    + apply String.eqb_neq in Es. split; [exact Es|].
      intros Hs. inversion Hs. congruence.
  - split; [exact Hne|discriminate].
Qed.

End SchemaName.

(** ** Every outcome of the resolution of the options *)

Section Outcomes.

Context `{Inflection}.

(** X14.  Resolving the options of a schema fails with a
    [ConfigurationError] exactly when [Meta] declares no entity, a falsy
    value, or a class that is not a subclass of [Entity]; it fails with a
    [TypeError] exactly when [Meta.entity] is a truthy value that is no
    class; it fails in no other way.  On success the entity class is the
    declared one, [schema_name] is the underscored name of the schema
    class when none is supplied, [bind] is "default" when none is supplied
    and [order_by] is the empty tuple when none is supplied; supplied
    values are kept. *)
Theorem schema_opts_outcomes (meta : Meta) (schema_cls_name : string) :
  let r := RepositorySchemaOpts_init meta schema_cls_name in
  ((exists msg, r = inl (ConfigurationError msg)) <->
   (meta_entity meta = None \/
    exists o, meta_entity meta = Some o /\
              (object_truthy o = false \/
               issubclass_Entity o = inr false))) /\
  ((exists msg, r = inl (TypeError msg)) <->
   (exists v, meta_entity meta = Some (NotAClass v) /\ truthy v = true)) /\
  (forall e, r = inl e ->
     (exists msg, e = ConfigurationError msg) \/
     (exists msg, e = TypeError msg)) /\
  (forall o, r = inr o ->
     meta_entity meta = Some (EntityClass (entity_cls o)) /\
     (meta_schema_name meta = None ->
      schema_name o = underscore schema_cls_name) /\
     (forall s, meta_schema_name meta = Some s -> s <> "" ->
      schema_name o = s) /\
     (meta_bind meta = None -> bind o = "default") /\
     (forall b, meta_bind meta = Some b -> bind o = b) /\
     (meta_order_by meta = None -> order_by o = PyTuple []) /\
     (forall ob, meta_order_by meta = Some ob -> order_by o = ob)).
Proof.
  unfold RepositorySchemaOpts_init.
  destruct meta as [[[c|n|v]|] sn b ob]; cbn [meta_entity meta_schema_name
    meta_bind meta_order_by object_truthy issubclass_Entity negb];
    cbv zeta.
  - split; [|split; [|split]].
    + split.
      * intros [msg He]. discriminate.
      * intros [Hn|[o [Ho [Ht|Hs]]]]; try discriminate;
          inversion Ho; subst; discriminate.
    + split.
      * intros [msg He]. discriminate.
      * intros [v [Hv _]]. discriminate.
    + intros e He. discriminate.
    + intros o Ho. inversion Ho; subst; clear Ho. cbn.
      repeat split.
      * intros ->. reflexivity.
      * intros s -> Hs. apply String.eqb_neq in Hs. now rewrite Hs.
      * intros ->. reflexivity.
      * intros b' ->. reflexivity.
      * intros ->. reflexivity.
      * intros ob' ->. reflexivity.
  - split; [|split; [|split]].
    + split; [|eauto]. intros _. right. exists (OtherClass n).
      split; [reflexivity|now right].
    + split.
      * intros [msg He]. discriminate.
      * intros [v [Hv _]]. discriminate.
    + intros e He. inversion He. eauto.
    + intros o Ho. discriminate.
  - destruct (truthy v) eqn:Et; cbn [negb].
    + split; [|split; [|split]].
      * split.
        -- intros [msg He]. discriminate.
        -- intros [Hn|[o [Ho [Ht|Hs]]]]; try discriminate;
             inversion Ho; subst; cbn in *; congruence.
      * split; [|eauto]. intros _. exists v. now split.
      * intros e He. inversion He. eauto.
      * intros o Ho. discriminate.
    + split; [|split; [|split]].
      * split; [|eauto]. intros _. right. exists (NotAClass v).
        split; [reflexivity|left; exact Et].
      * split.
        -- intros [msg He]. discriminate.
        -- intros [v' [Hv Ht]]. inversion Hv; subst. congruence.
      * intros e He. inversion He. eauto.
      * intros o Ho. discriminate.
  - split; [|split; [|split]].
    + split; [|eauto]. intros _. now left.
    + split.
      * intros [msg He]. discriminate.
      * intros [v [Hv _]]. discriminate.
    + intros e He. inversion He. eauto.
    + intros o Ho. discriminate.
Qed.

End Outcomes.

(** ** Fields that bear the name of a parameter *)

Section ReservedNames.

Context {Store Record : Type}.
Context `{Backend Store Record} `{Schema Record} `{FieldClass}.

(** X15.  A filter of [exists] that is named [page], [per_page] or
    [order_by] is taken as that parameter of the query: the one query
    made carries the value in its place and no filter.  A filter named
    [_excludes] or [self] makes [exists] raise [TypeError] with no query
    made. *)
Theorem exists_binds_parameter_names
    (ex : option (dict PyVal)) (v : PyVal) (w : World Store) :
  let answer q := (inr (Pagination_bool (run_query (store w) q)),
                   log (call_of q) w) in
  exists_ ex [("page", v)] w =
    answer (mkQuery v (PyInt 10) (PyTuple []) (excludes_arg ex) []) /\
  exists_ ex [("per_page", v)] w =
    answer (mkQuery (PyInt 1) v (PyTuple []) (excludes_arg ex) []) /\
  exists_ ex [("order_by", v)] w =
    answer (mkQuery (PyInt 1) (PyInt 10) v (excludes_arg ex) []) /\
  exists_ ex [("_excludes", v)] w =
    (inl (TypeError "got multiple values for argument _excludes"), w) /\
  exists_ ex [("self", v)] w =
    (inl (TypeError "got multiple values for argument self"), w).
Proof. repeat split. Qed.

End ReservedNames.

(** ** The in-memory adapter keeps the contract *)

Module DictRepoFacts.

Import DictRepo.

Lemma In_slice {A} (page_ per_page_ : Z) (l : list A) (x : A) :
  In x (slice page_ per_page_ l) -> In x l.
Proof.
  unfold slice. intros Hin.
  set (m := Z.to_nat ((page_ - 1) * per_page_)) in *.
  set (n := Z.to_nat per_page_) in *.
  rewrite <- (firstn_skipn m l). apply in_or_app. right.
  rewrite <- (firstn_skipn n (skipn m l)). apply in_or_app. now left.
Qed.

(** Called with integers and with excludes that are a dict or [None],
    the adapter runs its paginated query. *)
Lemma filter_objects_query (st : list Row) (page_ per_page_ : Z)
    (order : PyVal) (ex : option (dict PyVal)) (filters : dict PyVal) :
  filter_objects st page_ per_page_ order ex filters =
  query st page_ per_page_ order ex filters.
Proof. destruct ex; reflexivity. Qed.

Lemma dict_query_sound :
  forall (st : list Row) page_ per_page_ order ex filters r,
    In r (items (filter_objects st page_ per_page_ order ex filters)) ->
    In r (records st) /\ selected ex filters r = true.
Proof.
  intros st page_ per_page_ order ex filters r Hin.
  rewrite filter_objects_query in Hin. cbn in Hin.
  apply In_slice in Hin. apply filter_In in Hin. exact Hin.
Qed.

Lemma dict_query_first_page :
  forall (st : list Row) per_page_ order ex filters r,
    0 < per_page_ ->
    In r (records st) -> selected ex filters r = true ->
    items (filter_objects st 1 per_page_ order ex filters) <> [].
Proof.
  intros st per_page_ order ex filters r Hpos Hin Hsel. cbn in Hin.
  rewrite filter_objects_query.
  cbn [query items]. unfold slice.
  replace (Z.to_nat ((1 - 1) * per_page_)) with 0%nat by lia.
  rewrite skipn_0.
  assert (Hf : In r (List.filter (selected ex filters) st)).
  { apply filter_In. now split. }
  destruct (List.filter (selected ex filters) st) as [|x l]; [contradiction|].
  destruct (Z.to_nat per_page_) eqn:En; [lia|]. discriminate.
Qed.


End DictRepoFacts.

(** ** The properties at work on the in-memory adapter *)

Module Scenario.

Import DictRepo.

Ltac nodup_keys :=
  repeat (constructor; [simpl; intuition discriminate|]); constructor.

Ltac each_name tac :=
  repeat (apply Forall_cons; [cbv zeta; tac|]); apply Forall_nil.

(** The options of the account schema are those its [Meta] resolves to. *)
Example account_opts_resolved :
  RepositorySchemaOpts_init
    (mkSchemaMeta (Some (EntityClass Account)) None None None)
    "AccountSchema" = inr account_opts.
Proof. reflexivity. Qed.

(** Updating ann to the username she has goes through; updating her to
    the username of bob does not. *)
Example update_to_own_value :
  fst (update (PyInt 1) [("username", PyStr "ann")] world0) = inr ann_entity.
Proof. reflexivity. Qed.

Example update_to_taken_value :
  fst (update (PyInt 1) [("username", PyStr "bob")] world0) =
    inl (unique_violation "username").
Proof. reflexivity. Qed.

(** The identifier that is excluded is the one the entity holds once it
    is updated: when the data change the identifier of ann, her stored
    row is checked like any other and her own email is the conflict. *)
Example update_to_new_identifier :
  fst (update (PyInt 1) [("id", PyInt 5)] world0) =
    inl (unique_violation "email").
Proof. reflexivity. Qed.

(** The second page of one row: the pagination keeps the total, and the
    integer given as ordering is wrapped in a list. *)
Example filter_second_page :
  filter 2 1 (PyInt 5) None [] world0 =
    (inr (mkPagination 2 1 2 [mkEntity account_meta bob]),
     log (CallFilter 2 1 (PyList [PyInt 5]) None []) world0).
Proof. reflexivity. Qed.

(** Two unique fields of the new account are taken, and [create] reports
    the first one only.  A unique field that holds the empty string is not
    checked, although a stored account holds the empty string too, and the
    create primitive is called.  A unique field that bears the name of a
    parameter of the query is not checked by its value: for [page] and
    [per_page] the stored sheet with the same value is not found and the
    create primitive is called; for [order_by] the violation names that
    field although the only value taken is the title; for [_excludes] and
    [self] what is raised is a [TypeError]. *)
Lemma create_reports_first_conflict_only :
  (cls_call (entity_cls opts) [] twin_kwargs = inr twin /\
   In ("username", mkField false true) (unique_fields (meta_ twin)) /\
   In ann (records (store world0)) /\
   agrees ann ("username", getattr twin "username" PyNone) = true /\
   ~ blames "username" (fst (create [] twin_kwargs world0))) /\
  (cls_call (entity_cls opts) [] shy_kwargs = inr shy /\
   In ("username", mkField false true) (unique_fields (meta_ shy)) /\
   In anon (records (store world1)) /\
   agrees anon ("username", getattr shy "username" PyNone) = true /\
   ~ blames "username" (fst (create [] shy_kwargs world1)) /\
   In (CallCreate shy) (calls (snd (create [] shy_kwargs world1)))) /\
  (agrees (sheet "page" (PyInt 3) "a") ("page", PyInt 3) = true /\
   ~ blames "page"
       (fst (create_sheet "page" [sheet "page" (PyInt 3) "a"]
                          (PyInt 3) "b")) /\
   In (CallCreate (sheet_entity "page" (PyInt 3) "b"))
      (calls (snd (create_sheet "page" [sheet "page" (PyInt 3) "a"]
                                (PyInt 3) "b")))) /\
  (agrees (sheet "per_page" (PyInt 0) "a") ("per_page", PyInt 0) = true /\
   ~ blames "per_page"
       (fst (create_sheet "per_page" [sheet "per_page" (PyInt 0) "a"]
                          (PyInt 0) "b")) /\
   In (CallCreate (sheet_entity "per_page" (PyInt 0) "b"))
      (calls (snd (create_sheet "per_page"
                                [sheet "per_page" (PyInt 0) "a"]
                                (PyInt 0) "b")))) /\
  (agrees (sheet "order_by" (PyStr "y") "a") ("title", PyStr "a") = true /\
   agrees (sheet "order_by" (PyStr "y") "a") ("order_by", PyStr "x")
     = false /\
   ~ blames "title"
       (fst (create_sheet "order_by" [sheet "order_by" (PyStr "y") "a"]
                          (PyStr "x") "a"))) /\
  (agrees (sheet "_excludes" (PyInt 1) "a") ("_excludes", PyInt 1) = true /\
   ~ blames "_excludes"
       (fst (create_sheet "_excludes" [sheet "_excludes" (PyInt 1) "a"]
                          (PyInt 1) "b"))) /\
  (agrees (sheet "self" (PyInt 1) "a") ("self", PyInt 1) = true /\
   ~ blames "self"
       (fst (create_sheet "self" [sheet "self" (PyInt 1) "a"]
                          (PyInt 1) "b"))).
Proof.
  repeat match goal with
         | |- _ /\ _ => split
         | |- ~ blames _ _ =>
             let e := fresh "e" in
             let He := fresh "He" in
             let Hk := fresh "Hk" in
             intros [e [He Hk]]; vm_compute in He;
             try discriminate He;
             inversion He; subst e; vm_compute in Hk;
             intuition discriminate
         | |- In _ _ => vm_compute; tauto
         | |- _ = _ => reflexivity
         end.
Qed.

(** The validator on a new sheet with identifier 1, which no stored sheet
    has: when the identifier field bears the name of a parameter, no check
    with that field as its filter is made, and the validator raises. *)
Lemma validate_unique_of_reserved_names :
  Forall
    (fun n =>
       let run := @validate_unique _ _ (backend_by n) (sheet_schema n) fields
                    (sheet_entity n (PyInt 1) "x") true
                    (mkWorld (sheets n) []) in
       In (n, PyInt 1)
          (filter_fields (sheet_entity n (PyInt 1) "x") true) /\
       (forall r, In r (sheets n) -> agrees r (n, PyInt 1) = false) /\
       ~ In (CallFilter 1 10 (PyTuple []) (Some []) [(n, PyInt 1)])
            (calls (snd run)) /\
       fst run <> inr tt)
    ("self" :: parameters).
Proof.
  each_name
    ltac:(split; [vm_compute; tauto|];
          split; [intros r Hr; vm_compute in Hr;
                  destruct Hr as [<-|[<-|[]]]; reflexivity|];
          split; intros Hc; vm_compute in Hc; intuition discriminate).
Qed.

(** [get] of identifier 1, which no stored sheet has: when the identifier
    field bears the name of a parameter the query is not the one with the
    identifier as its filter, and [get] does not raise
    [ObjectNotFoundError]. *)
Lemma get_of_reserved_names :
  Forall
    (fun n =>
       let w := mkWorld (sheets n) [] in
       let run := @get _ _ (backend_by n) (sheet_schema n) (PyInt 1) w in
       items (@filter_objects _ _ (backend_by n) (sheets n) 1 10 (PyTuple [])
                None [(n, PyInt 1)]) = [] /\
       fst run <> inl (ObjectNotFoundError "SheetSchema" (PyInt 1)) /\
       snd run <> log (CallFilter 1 10 (PyTuple []) None [(n, PyInt 1)]) w)
    ("self" :: parameters).
Proof.
  each_name
    ltac:(split; [reflexivity|];
          split; intros Hc; vm_compute in Hc; discriminate Hc).
Qed.

(** [exists] asked for a field that no account has: when the filter bears
    the name of a parameter the answer is not [False]. *)
Lemma exists_of_reserved_names :
  Forall
    (fun n =>
       (forall r, In r (records (store world0)) ->
                  matches [(n, PyInt 1)] r = false) /\
       fst (exists_ (Some []) [(n, PyInt 1)] world0) <> inr false)
    ("self" :: parameters).
Proof.
  each_name
    ltac:(split; [intros r Hr; vm_compute in Hr;
                  destruct Hr as [<-|[<-|[]]]; reflexivity|];
          intros Hc; vm_compute in Hc; discriminate Hc).
Qed.

(** [update] of identifier 1, which no stored sheet has: when the
    identifier field bears the name of a parameter, [update] does not
    raise [ObjectNotFoundError]; but for [self], it goes on to the update
    primitive. *)
Lemma update_of_reserved_names :
  Forall
    (fun n =>
       let w := mkWorld (sheets n) [] in
       let run := @update _ _ (backend_by n) (sheet_schema n) fields
                    (PyInt 1) [] w in
       items (@filter_objects _ _ (backend_by n) (sheets n) 1 10 (PyTuple [])
                None [(n, PyInt 1)]) = [] /\
       fst run <> inl (ObjectNotFoundError "SheetSchema" (PyInt 1)) /\
       (n <> "self" ->
        In (CallUpdate (sheet_entity n (PyInt 7) "a")) (calls (snd run))))
    ("self" :: parameters).
Proof.
  each_name
    ltac:(split; [reflexivity|];
          split; [intros Hc; vm_compute in Hc; discriminate Hc|];
          first [ intros Hn; exfalso; now apply Hn
                | intros _; vm_compute; tauto ]).
Qed.

Lemma unique_conflict_blocks_write_witness :
  exists w',
    create [] twin_kwargs world0 = (inl (unique_violation "email"), w') /\
    store w' = [ann; bob] /\ no_write_since world0 w'.
Proof.
  destruct (unique_conflict_blocks_write DictRepoFacts.dict_query_sound
              DictRepoFacts.dict_query_first_page twin true "username"
              (mkField false true) [ann; bob])
    as [k0 [v0 [_ [_ [Hcreate _]]]]].
  - nodup_keys.
  - reflexivity.
  - vm_compute. tauto.
  - reflexivity.
  - reflexivity.
  - exists ann. repeat split. now left.
  - destruct (Hcreate eq_refl [] twin_kwargs world0 eq_refl eq_refl)
      as [w' [Hrun Hrest]].
    assert (Hk : k0 = "email").
    { pose proof Hrun as Hc. vm_compute in Hc. now inversion Hc. }
    subst k0. exists w'. now split.
Defined.


Lemma validate_unique_stops_at_first_conflict_witness :
  fst (validate_unique twin true world0) = inl (unique_violation "email") /\
  calls (snd (validate_unique twin true world0)) =
    [probe [] ("id", PyInt 3); probe [] ("email", PyStr "ann@example.com")].
Proof.
  generalize (validate_unique_stops_at_first_conflict twin true world0
                ltac:(nodup_keys) eq_refl).
  cbv zeta. destruct (validate_unique twin true world0) as [r w'].
  intros [_ [Hcalls Hr]]. split; [exact Hr|exact Hcalls].
Defined.

Lemma empty_unique_field_is_skipped_witness :
  ~ In "username" (keys (fst (unique_lookups shy true))) /\
  forall e, fst (validate_unique shy true world1) = inl e ->
            ~ keyed_by "username" e.
Proof.
  generalize (empty_unique_field_is_skipped shy true "username" world1
                eq_refl).
  destruct (unique_lookups shy true) as [filters excludes].
  destruct (validate_unique shy true world1) as [r w'].
  intros [Hf [_ [_ He]]]. split; [exact Hf|exact He].
Defined.

Lemma get_first_record_or_not_found_witness :
  get (PyInt 2) world0 =
    (inr (mkEntity account_meta bob),
     log (CallFilter 1 10 (PyTuple []) None [("id", PyInt 2)]) world0).
Proof.
  generalize (get_first_record_or_not_found (PyInt 2) world0 eq_refl).
  cbv zeta. destruct (get (PyInt 2) world0) as [r w'].
  intros [Hw [_ [_ Hfound]]]. rewrite Hw.
  now rewrite (Hfound bob [] eq_refl).
Defined.

Lemma exists_iff_selected_record_witness :
  fst (exists_ (Some []) [("username", PyStr "ann")] world0) = inr true.
Proof.
  destruct (exists_iff_selected_record DictRepoFacts.dict_query_sound
              DictRepoFacts.dict_query_first_page
              (Some []) [("username", PyStr "ann")] world0 eq_refl)
    as [b [Hrun [Hiff _]]].
  rewrite Hrun. cbn [fst]. f_equal. apply Hiff.
  exists ann. repeat split. now left.
Defined.

Lemma update_of_missing_raises_not_found_witness :
  fst (update (PyInt 7) [("username", PyStr "zed")] world0) =
    inl (ObjectNotFoundError "AccountSchema" (PyInt 7)) /\
  store (snd (update (PyInt 7) [("username", PyStr "zed")] world0)) =
    [ann; bob].
Proof.
  generalize (update_of_missing_raises_not_found (PyInt 7)
                [("username", PyStr "zed")] world0 eq_refl eq_refl).
  destruct (update (PyInt 7) [("username", PyStr "zed")] world0) as [r w'].
  intros [Hr [Hs _]]. split; [exact Hr|exact Hs].
Defined.

End Scenario.

(** ** The further properties at work on the in-memory adapter *)

Module MoreScenarios.

Import DictRepo.

Ltac dict_keys :=
  repeat (constructor; [simpl; intuition discriminate|]); constructor.

Lemma filter_falsy_order_by_is_default_witness :
  snd (@filter _ _ backend ordered_schema 1 10 (PyList []) None [] world0) =
  log (CallFilter 1 10 (PyList [PyStr "-id"]) None []) world0.
Proof.
  apply (@filter_falsy_order_by_is_default _ _ backend ordered_schema
           1 10 (PyList []) None [] world0).
  reflexivity.
Defined.

Lemma get_succeeds_iff_exists_witness :
  snd (get (PyInt 2) world0) =
  log (CallFilter 1 10 (PyTuple []) None [("id", PyInt 2)]) world0.
Proof.
  exact (proj1 (proj2 (get_succeeds_iff_exists (PyInt 2) world0 eq_refl))).
Defined.

Lemma validate_unique_of_empty_fields_witness :
  validate_unique blank true world0 = (inr tt, world0).
Proof.
  apply (validate_unique_of_empty_fields blank true world0).
  intros nf Hin. vm_compute in Hin.
  destruct Hin as [<-|[<-|[<-|[]]]]; reflexivity.
Defined.

Lemma validate_unique_depends_on_unique_fields_witness :
  validate_unique ann_entity false world0 =
  validate_unique ann_rewritten false world0.
Proof.
  apply (validate_unique_depends_on_unique_fields
           ann_entity ann_rewritten false world0).
  - reflexivity.
  - intros nf Hin. vm_compute in Hin.
    destruct Hin as [<-|[<-|[<-|[]]]]; reflexivity.
Defined.

Lemma validate_unique_passes_iff_witness :
  ~ (forall kv r,
       In kv (filter_fields twin true) ->
       In r (records (store world0)) ->
       agrees r kv = true ->
       excluded (Some (exclude_fields twin true)) r = true).
Proof.
  intros Hall.
  apply (validate_unique_passes_iff DictRepoFacts.dict_query_sound
           DictRepoFacts.dict_query_first_page twin true world0
           ltac:(dict_keys) eq_refl) in Hall.
  vm_compute in Hall. discriminate.
Defined.

Lemma exists_iff_filter_finds_witness :
  exists p,
    fst (filter 1 3 (PyStr "-id") (Some []) [("username", PyStr "ann")]
                world0) = inr p /\
    items p <> [].
Proof.
  apply (exists_iff_filter_finds DictRepoFacts.dict_query_sound
           DictRepoFacts.dict_query_first_page 3 (PyStr "-id") (Some [])
           [("username", PyStr "ann")] world0).
  - reflexivity.
  - reflexivity.
  - reflexivity.
Defined.

Lemma resolved_schema_name_not_empty_witness :
  schema_name account_opts <> "".
Proof.
  apply (resolved_schema_name_not_empty
           (mkSchemaMeta (Some (EntityClass Account)) None None None)
           "AccountSchema" account_opts).
  - vm_compute. discriminate.
  - reflexivity.
Defined.

Lemma validate_unique_create_implies_update_witness :
  fst (validate_unique shy false world0) = inr tt.
Proof.
  apply (validate_unique_create_implies_update
           DictRepoFacts.dict_query_sound
           DictRepoFacts.dict_query_first_page shy world0).
  - dict_keys.
  - reflexivity.
  - reflexivity.
Defined.

Lemma absent_identifier_is_not_found_witness :
  update (PyInt 7) [("username", PyStr "zed")] world0 =
    (inl (ObjectNotFoundError "AccountSchema" (PyInt 7)),
     log (CallFilter 1 10 (PyTuple []) None [("id", PyInt 7)]) world0).
Proof.
  refine (proj2 (absent_identifier_is_not_found
                   DictRepoFacts.dict_query_sound
                   (PyInt 7) [("username", PyStr "zed")] world0 eq_refl _)).
  intros r Hr. vm_compute in Hr.
  destruct Hr as [<-|[<-|[]]]; reflexivity.
Defined.

End MoreScenarios.
